(** * JustDAO-UI: the ledger reconciliation hooks, embedded and verified

    The development follows the JavaScript sources:
    - [useVoting.js]   (hook [useVoting]: tally reconstruction, vote casting,
                        the read-path accessors),
    - [VoteTab.jsx]    (component [VoteTab]: optimistic vote record, percentage
                        computation),
    - the DAO statistics hook [useDAOStats] (proposal-count discovery by binary
      search, governance metrics with seeded defaults, token-holder count,
      supply figures).

    Modelling conventions.
    - An awaited contract call either resolves or rejects: [outcome A].
    - [try { ... } catch { ... }] is [try_catch]; code that also performs
      observable effects (React state setters, the vote transaction) runs in
      the traced monad [M], whose trace lists the effects in program order.
    - JavaScript numbers that hold token amounts and identifiers are integers
      here ([Z], exact); rates and percentages are rationals ([Q]) extended
      with [NaN], and with the infinities for what [parseFloat] reads, where
      the source can produce them.  The source computes in double precision:
      sums of integers agree with the exact ones as long as they stay safe
      integers (module [Doubles] has the rounded additions, and the
      properties that depend on exact sums assume that range); quotients are
      rounded by the source and exact here, so only properties that rounding
      preserves (ranges, zero guards) are stated of them as properties of
      the code. *)

From Stdlib Require Import ZArith QArith Qfield Lia Lqa List Bool Ascii String.
From stdpp Require Import base option list gmap strings.

Local Open Scope Z_scope.
Set Warnings "-clear-no-such-hyp".

(* ===================================================================== *)
(** * JavaScript runtime notions shared by the hooks *)
(* ===================================================================== *)

Module Js.

(** The errors the hooks construct with [new Error(...)], plus the rejections
    that come from the provider or the contract ([Upstream]). *)
Inductive error : Type :=
  | NotConnected            (* "Not connected to blockchain" *)
  | GovernanceNotInitialized(* "Governance contract not initialized" *)
  | InvalidVoteType         (* "Invalid vote type. Must be 0 ..., 1 ..., or 2 ..." *)
  | ProposalNotActive       (* "Proposal is not active. ..." *)
  | AlreadyVoted            (* "You have already voted on this proposal" *)
  | NoVotingPower           (* "You don't have any voting power ..." *)
  | NotFound                (* named by the specification; never constructed *)
  | TypeError               (* property access on undefined *)
  | Overflow                (* BigNumber.toNumber() beyond 53 bits *)
  | Upstream (reason : string).

(** Result of an awaited promise / of a block that may throw. *)
Inductive outcome (A : Type) : Type :=
  | Returned (a : A)
  | Thrown (e : error).
Arguments Returned {A} a.
Arguments Thrown {A} e.

Definition is_returned {A} (o : outcome A) : bool :=
  match o with Returned _ => true | Thrown _ => false end.

Definition obind {A B} (f : A -> outcome B) (o : outcome A) : outcome B :=
  match o with
  | Returned a => f a
  | Thrown e => Thrown e
  end.

#[global] Instance outcome_ret : MRet outcome := @Returned.
#[global] Instance outcome_bind : MBind outcome := @obind.

(** [try { body } catch (err) { handler }] *)
Definition try_catch {A} (body : outcome A) (handler : error -> outcome A)
  : outcome A :=
  match body with
  | Returned a => Returned a
  | Thrown e => handler e
  end.

(** [BigNumber.prototype.toNumber]: throws when the value needs more than
    53 bits. *)
Definition toNumber (z : Z) : outcome Z :=
  if z <? 2 ^ 53 then Returned z else Thrown Overflow.

(** [Number.MAX_SAFE_INTEGER] *)
Definition MAX_SAFE_INTEGER : Z := 2 ^ 53 - 1.

(** The double nearest to an integer, ties to the even significand.  Every
    integer below [2 ^ 53] in magnitude is a double; beyond, the doubles are
    the multiples of the power of two that leaves 53 significant bits.
    (Infinity, from [2 ^ 1024] on, is out of reach of the sums taken here.) *)
Definition roundDouble (z : Z) : Z :=
  let m := Z.abs z in
  if m <? 2 ^ 53 then z
  else
    let unit := 2 ^ (Z.log2 m - 52) in
    let q := m / unit in
    let r := m mod unit in
    let half := unit / 2 in
    let up := (half <? r) || ((r =? half) && Z.odd q) in
    Z.sgn z * ((if up then q + 1 else q) * unit).

(** [a + b] on two numbers that hold integers. *)
Definition addDouble (a b : Z) : Z := roundDouble (a + b).

(** JavaScript numbers as far as rates need them: a rational or [NaN]. *)
Inductive number : Type :=
  | NaN
  | Num (q : Q).

Definition isNaN (x : number) : bool :=
  match x with NaN => true | Num _ => false end.

(** [x / k] for a numeric literal [k]. *)
Definition ndiv (x : number) (k : Q) : number :=
  match x with
  | NaN => NaN
  | Num q => Num (q / k)
  end.

(** Comparisons against a literal; every comparison with [NaN] is false. *)
Definition nle (x : number) (k : Q) : bool :=
  match x with NaN => false | Num q => Qle_bool q k end.
Definition ngt (x : number) (k : Q) : bool :=
  match x with NaN => false | Num q => negb (Qle_bool q k) end.
Definition nseq (x : number) (k : Q) : bool :=
  match x with NaN => false | Num q => Qeq_bool q k end.

(** A number as [parseFloat] returns it: finite, infinite or [NaN].  Finite
    values are kept exact, and the sign of zero is not tracked. *)
Inductive float : Type :=
  | FNaN
  | FInf (negative : bool)
  | FNum (q : Q).

Definition isNegative (q : Q) : bool :=
  if Qlt_le_dec q 0 then true else false.

(** [x + y] *)
Definition fadd (x y : float) : float :=
  match x, y with
  | FNaN, _ | _, FNaN => FNaN
  | FInf a, FInf b => if Bool.eqb a b then FInf a else FNaN
  | FInf a, FNum _ => FInf a
  | FNum _, FInf b => FInf b
  | FNum p, FNum q => FNum (p + q)
  end.

(** [x / y] *)
Definition fdiv (x y : float) : float :=
  match x, y with
  | FNaN, _ | _, FNaN => FNaN
  | FInf _, FInf _ => FNaN
  | FInf a, FNum q => FInf (xorb a (isNegative q))
  | FNum p, FInf _ => FNum 0
  | FNum p, FNum q =>
      if Qeq_bool q 0 then (if Qeq_bool p 0 then FNaN else FInf (isNegative p))
      else FNum (p / q)
  end.

(** [x * k] for a positive numeric literal [k]. *)
Definition fscale (x : float) (k : Q) : float :=
  match x with
  | FNum q => FNum (q * k)
  | _ => x
  end.

(** [x > 0] *)
Definition fpositive (x : float) : bool :=
  match x with
  | FNaN => false
  | FInf negative => negb negative
  | FNum q => if Qlt_le_dec 0 q then true else false
  end.

(** [String.prototype.toLowerCase] on ASCII text (addresses are ASCII). *)
Definition lower_ascii (c : ascii) : ascii :=
  let n := nat_of_ascii c in
  if ((65 <=? n) && (n <=? 90))%nat then ascii_of_nat (n + 32) else c.

Fixpoint toLowerCase (s : string) : string :=
  match s with
  | EmptyString => EmptyString
  | String c s' => String (lower_ascii c) (toLowerCase s')
  end.

End Js.

(* ===================================================================== *)
(** * The wallet / contract context the hooks obtain from [useWeb3()] *)
(* ===================================================================== *)

Module Web3.
Import Js.

(** A raw log returned by [provider.getLogs]; [parseLog] throws on a log that
    does not decode as [VoteCast(uint256,address,uint8,uint256)].  The decoded
    [votingPower] is a BigNumber. *)
Inductive Log : Type :=
  | Malformed
  | VoteCast (voter : string) (support : Z) (votingPower : Z).

(** A decoded [VoteCast] event as returned by [queryFilter]. *)
Record VoteCastEvent : Type := { ev_voter : string; ev_support : Z }.

(** A proposal-creation event; [ev_snapshot] is what
    [defaultAbiCoder.decode(['uint8','uint256'], data)[1]] yields, or an
    error when the payload does not decode. *)
Record ProposalEvent : Type := { ev_snapshot : outcome Z }.

(** What [contracts.governance.castVote(...)] followed by [tx.wait()] does. *)
Inductive TxResult : Type :=
  | Rejected (e : error)                    (* the send itself rejects *)
  | Reverted (e : error)                    (* [tx.wait()] rejects *)
  | Confirmed (transactionHash : string) (blockNumber : Z).

Record Governance : Type := {
  provider : bool;                                 (* [contracts.governance.provider] is set *)
  getProposalState : Z -> outcome Z;
  getProposalCount : option (outcome Z);           (* [None]: no such method *)
  getLogs : Z -> outcome (list Log);               (* VoteCast logs of a proposal *)
  proposalVoterInfo : Z -> string -> outcome Z;
  queryVoteCast : Z -> string -> outcome (list VoteCastEvent);
  queryProposalCreated : Z -> outcome (list ProposalEvent);
  sendCastVote : Z -> Z -> TxResult
}.

(** A value read from an analytics struct.  [BigNumberField] has a
    [toNumber] method; [OtherField] is anything else, given by its truthiness
    and by what [parseInt(x.toString() || '0')] makes of it. *)
Inductive Field : Type :=
  | Absent
  | BigNumberField (z : Z)
  | OtherField (truthy : bool) (parsed : number).

Record ProposalAnalytics : Type := {
  avgVotingTurnout : Field;
  generalSuccessRate : Field
}.

Record TokenAnalytics : Type := { percentageDelegated : Field }.

(** [null] / [undefined] results are [None]. *)
Record AnalyticsHelper : Type := {
  getProposalAnalytics : outcome (option ProposalAnalytics);
  getTokenDistributionAnalytics : outcome (option TokenAnalytics)
}.

(** [getSnapshotMetrics] answers with a struct: [sm_percentageDelegated] is
    the named field when present and truthy (as [parseInt] reads it),
    [sm_items] the positional entries (each as [parseInt] reads it). *)
Record SnapshotMetrics : Type := {
  sm_percentageDelegated : option number;
  sm_items : list number
}.

Record Token : Type := {
  getCurrentSnapshotId : outcome Z;
  getEffectiveVotingPower : option string -> Z -> outcome Z;
  getSnapshotMetrics : Z -> outcome (option SnapshotMetrics)
}.

Record Context : Type := {
  governance : option Governance;
  token : option Token;
  analyticsHelper : option AnalyticsHelper;
  account : option string;          (* [None]: null / empty *)
  isConnected : bool;
  contractsReady : bool
}.

End Web3.

(* ===================================================================== *)
(** * [useDAOStats]: proposal statistics *)
(* ===================================================================== *)

Module DAOStats.
Import Js Web3.

(** The [while (low <= high)] loop of [fetchProposalStats].  [probe mid] is
    [true] when [getProposalState(mid)] resolves and [false] when it rejects.
    The loop returns the final [high]; [None] only when [fuel] runs out. *)
Fixpoint searchLoop (fuel : nat) (probe : Z -> bool) (low high : Z) : option Z :=
  match fuel with
  | O => None
  | S fuel' =>
      if low <=? high then
        let mid := (low + high) / 2 in
        if probe mid
        then searchLoop fuel' probe (mid + 1) high
        else searchLoop fuel' probe low (mid - 1)
      else Some high
  end.

(** "Reasonable upper limit" of the identifier space. *)
Definition UPPER_BOUND : Z := 1000.

(** The binary-search branch: [low = 0], [high = 1000], result [high + 1].
    The interval holds 1001 identifiers, so 1002 iterations always suffice
    (see [searchLoop_terminates]). *)
Definition binarySearchCount (probe : Z -> bool) : option Z :=
  h ← searchLoop 1002 probe 0 UPPER_BOUND; Some (h + 1).

Definition exists_on (g : Governance) (id : Z) : bool :=
  is_returned (getProposalState g id).

(** [totalProposals] as [fetchProposalStats] computes it: the direct counter
    when the contract has one and it yields a non-zero count, the binary
    search otherwise.  A counter that rejects, or whose [toNumber()]
    overflows, leaves the count at 0. *)
Definition directCount (g : Governance) : Z :=
  match getProposalCount g with
  | Some call =>
      match count ← call; toNumber count with
      | Returned n => n
      | Thrown _ => 0
      end
  | None => 0
  end.

Definition totalProposals (g : Governance) : option Z :=
  let direct := directCount g in
  if direct =? 0 then binarySearchCount (exists_on g) else Some direct.

(** The [for (let i = 0; i < totalProposals; i++)] loop counting active
    proposals (state [0]). *)
Definition isActive (g : Governance) (id : Z) : bool :=
  match getProposalState g id with
  | Returned state => state =? 0
  | Thrown _ => false
  end.

Definition activeProposals (g : Governance) (total : Z) : Z :=
  Z.of_nat (length (filter (fun i => isActive g (Z.of_nat i) = true)
                           (seq 0 (Z.to_nat total)))).

Record ProposalStats : Type := { stat_active : Z; stat_total : Z }.

Definition fetchProposalStats (g : Governance) : option ProposalStats :=
  total ← totalProposals g;
  Some {| stat_active := activeProposals g total; stat_total := total |}.

(** The reference the specification compares against: scan identifiers
    [0, 1, 2, ...] upward and count how many exist before the first missing
    one, looking at no more than [bound] identifiers. *)
Fixpoint linearScanFrom (bound : nat) (probe : Z -> bool) (i : Z) : Z :=
  match bound with
  | O => i
  | S bound' => if probe i then linearScanFrom bound' probe (i + 1) else i
  end.

Definition linearExistenceScan (probe : Z -> bool) : Z :=
  linearScanFrom 1001 probe 0.

(** The ledger holds exactly the identifiers [0 .. n-1]. *)
Definition contiguous (probe : Z -> bool) (n : Z) : Prop :=
  forall i, 0 <= i -> probe i = (i <? n).

(** ** [fetchGovernanceMetrics] *)

Record Rates : Type := {
  participationRate : number;
  delegationRate : number;
  proposalSuccessRate : number
}.

Definition DEFAULT_PARTICIPATION : Q := 27 # 100.
Definition DEFAULT_DELEGATION : Q := 38 # 100.
Definition DEFAULT_SUCCESS : Q := 73 # 100.

(** "Start with realistic default values". *)
Definition initialRates : Rates :=
  {| participationRate := Num DEFAULT_PARTICIPATION;
     delegationRate := Num DEFAULT_DELEGATION;
     proposalSuccessRate := Num DEFAULT_SUCCESS |}.

Definition setParticipation (x : number) (r : Rates) : Rates :=
  {| participationRate := x;
     delegationRate := delegationRate r;
     proposalSuccessRate := proposalSuccessRate r |}.
Definition setDelegation (x : number) (r : Rates) : Rates :=
  {| participationRate := participationRate r;
     delegationRate := x;
     proposalSuccessRate := proposalSuccessRate r |}.
Definition setSuccess (x : number) (r : Rates) : Rates :=
  {| participationRate := participationRate r;
     delegationRate := delegationRate r;
     proposalSuccessRate := x |}.

(** Statements of a [try] block run in order; the first one that throws ends
    the block, and the assignments made so far stay. *)
Fixpoint runUntilThrow (steps : list (Rates -> outcome Rates)) (r : Rates) : Rates :=
  match steps with
  | [] => r
  | step :: rest =>
      match step r with
      | Returned r' => runUntilThrow rest r'
      | Thrown _ => r
      end
  end.

(** [typeof f.toNumber === 'function' ? f.toNumber() : parseInt(f.toString() || '0')],
    with [f?.] on a missing field. *)
Definition readField (f : Field) : outcome number :=
  match f with
  | BigNumberField z => n ← toNumber z; mret (Num (inject_Z n))
  | OtherField _ parsed => mret parsed
  | Absent => mret (Num 0)
  end.

Definition truthy (f : Field) : bool :=
  match f with
  | Absent => false
  | BigNumberField _ => true
  | OtherField t _ => t
  end.

Definition participationFrom (pa : option ProposalAnalytics) (r : Rates) : outcome Rates :=
  match pa with
  | None => mret r
  | Some a => x ← readField (avgVotingTurnout a); mret (setParticipation (ndiv x 10000) r)
  end.

Definition successFrom (pa : option ProposalAnalytics) (r : Rates) : outcome Rates :=
  match pa with
  | None => mret r
  | Some a =>
      if truthy (generalSuccessRate a)
      then x ← readField (generalSuccessRate a); mret (setSuccess (ndiv x 100) r)
      else mret r
  end.

Definition delegationFrom (h : AnalyticsHelper) (r : Rates) : outcome Rates :=
  ta ← getTokenDistributionAnalytics h;
  match ta with
  | None => mret r
  | Some t =>
      if truthy (percentageDelegated t)
      then x ← readField (percentageDelegated t); mret (setDelegation (ndiv x 10000) r)
      else mret r
  end.

(** "Try analytics helper first". *)
Definition fromAnalyticsHelper (w : Context) (r : Rates) : Rates :=
  match analyticsHelper w with
  | None => r
  | Some h =>
      match getProposalAnalytics h with
      | Thrown _ => r
      | Returned pa =>
          runUntilThrow [participationFrom pa; successFrom pa; delegationFrom h] r
      end
  end.

(** "Try to get delegation rate from token snapshot if ... delegation is
    still 0". *)
Definition fromSnapshot (w : Context) (r : Rates) : Rates :=
  if nseq (delegationRate r) 0 then
    match token w with
    | None => r
    | Some t =>
        match getCurrentSnapshotId t with
        | Thrown _ => r
        | Returned snapshotId =>
            if snapshotId =? 0 then r else
            match getSnapshotMetrics t snapshotId with
            | Thrown _ | Returned None => r
            | Returned (Some metrics) =>
                match sm_percentageDelegated metrics with
                | Some x => setDelegation (ndiv x 10000) r
                | None =>
                    if (5 <=? length (sm_items metrics))%nat
                    then setDelegation (ndiv (nth 4 (sm_items metrics) NaN) 10000) r
                    else r
                end
            end
        end
    end
  else r.

(** [if (x <= 0.01 || x > 1) x = fallback] *)
Definition plausible (fallback : Q) (x : number) : number :=
  if nle x (1 # 100) || ngt x 1 then Num fallback else x.

(** [isNaN(x) ? fallback : x] *)
Definition validNumber (fallback : Q) (x : number) : number :=
  if isNaN x then Num fallback else x.

Definition sanitize (fallback : Q) (x : number) : number :=
  validNumber fallback (plausible fallback x).

(** The strategies' combined answer, before the plausibility check. *)
Definition strategyRates (w : Context) : Rates :=
  fromSnapshot w (fromAnalyticsHelper w initialRates).

(** Every statement of the body that can throw sits in an inner [try], so
    the outer [catch] (which returns the three defaults) is never entered. *)
Definition fetchGovernanceMetrics (w : Context) : Rates :=
  let r := strategyRates w in
  {| participationRate := sanitize DEFAULT_PARTICIPATION (participationRate r);
     delegationRate := sanitize DEFAULT_DELEGATION (delegationRate r);
     proposalSuccessRate := sanitize DEFAULT_SUCCESS (proposalSuccessRate r) |}.

(** ** The state queries of the binary search *)

(** The same loop as [searchLoop], also listing the identifiers it probes,
    in order (see [searchTrace_result]). *)
Fixpoint searchTrace (fuel : nat) (probe : Z -> bool) (low high : Z)
  : option (Z * list Z) :=
  match fuel with
  | O => None
  | S fuel' =>
      if low <=? high then
        let mid := (low + high) / 2 in
        '(h, probes) ←
          (if probe mid
           then searchTrace fuel' probe (mid + 1) high
           else searchTrace fuel' probe low (mid - 1));
        Some (h, mid :: probes)
      else Some (high, [])
  end.

(** The identifiers [getProposalState] is called with by the binary search. *)
Definition probedIds (probe : Z -> bool) : list Z :=
  from_option snd [] (searchTrace 1002 probe 0 UPPER_BOUND).

End DAOStats.

(* ===================================================================== *)
(** * [useDAOStats]: token holders and supply *)
(* ===================================================================== *)

Module Holders.
Import Js.

(** [ethers.constants.AddressZero] *)
Definition AddressZero : string := "0x0000000000000000000000000000000000000000".

(** A [Transfer] event; [tr_args] is [event.args] ([None] when the event
    carries no decoded arguments), with its [from] and [to]. *)
Record TransferEvent : Type := { tr_args : option (string * string) }.

(** What the holder count reads from [contracts.token]. *)
Record TokenContract : Type := {
  address : option string;
  getBlockNumber : outcome Z;                        (* [provider.getBlockNumber()] *)
  queryTransfer : Z -> outcome (list TransferEvent); (* [queryFilter(filter, fromBlock)] *)
  balanceOf : string -> outcome Z;
  totalSupply : outcome Z;
  signerAddress : option string                      (* [signer && signer.address] *)
}.

(** The treasury balance field of the token analytics, as
    [ethers.BigNumber.from] (or [toBigNumber()]) converts it; the conversion
    may throw. *)
Record TreasuryAnalytics : Type := { treasuryBalance : option (outcome Z) }.

Record Contracts : Type := {
  token : option TokenContract;
  governanceAddress : option string;       (* [governance && governance.address] *)
  analyticsHelperAddress : option string;  (* [analyticsHelper && analyticsHelper.address] *)
  tokenDistribution : option (outcome (option TreasuryAnalytics));
                                           (* [None]: no analytics helper *)
  account : option string
}.

(** [Set.prototype.add], the set kept in insertion order as [Array.from]
    reads it back. *)
Definition setAdd (x : string) (s : list string) : list string :=
  if bool_decide (x ∈ s) then s else s ++ [x].

Definition setAddOpt (x : option string) (s : list string) : list string :=
  match x with
  | Some a => setAdd (toLowerCase a) s
  | None => s
  end.

(** The body of [for (const event of events)]: senders and receivers, the
    zero address skipped. *)
Definition addTransfer (s : list string) (event : TransferEvent) : list string :=
  match tr_args event with
  | None => s
  | Some (from, to) =>
      let s1 := if String.eqb from AddressZero then s else setAdd (toLowerCase from) s in
      if String.eqb to AddressZero then s1 else setAdd (toLowerCase to) s1
  end.

(** The candidate addresses: those of the transfers, then the governance
    contract, the analytics helper and the connected account. *)
Definition candidateAddresses (c : Contracts) (events : list TransferEvent)
  : list string :=
  setAddOpt (account c)
    (setAddOpt (analyticsHelperAddress c)
       (setAddOpt (governanceAddress c)
          (fold_left addTransfer events []))).

(** [balanceOf(address).then(b => !b.isZero()).catch(() => false)] *)
Definition holdsTokens (t : TokenContract) (addr : string) : bool :=
  match balanceOf t addr with
  | Returned balance => negb (balance =? 0)
  | Thrown _ => false
  end.

Definition batchSize : nat := 10.

(** The loop [for (let i = 0; i < addresses.length; i += batchSize)], each
    round counting the holders of [addresses.slice(i, i + batchSize)]. *)
Fixpoint batchLoop (fuel : nat) (t : TokenContract) (addresses : list string)
    (i holdersCount : nat) : nat :=
  match fuel with
  | O => holdersCount
  | S fuel' =>
      if (i <? length addresses)%nat then
        let batch := take batchSize (drop i addresses) in
        let batchHolders := length (List.filter (holdsTokens t) batch) in
        batchLoop fuel' t addresses (i + batchSize) (holdersCount + batchHolders)
      else holdersCount
  end.

(** Every round advances [i], so [length addresses] rounds are enough. *)
Definition countHolders (t : TokenContract) (addresses : list string) : nat :=
  batchLoop (length addresses) t addresses 0 0.

(** [Number.prototype.toString(16)] *)
Definition hexDigit (d : nat) : ascii :=
  match d with
  | 0 => "0" | 1 => "1" | 2 => "2" | 3 => "3" | 4 => "4" | 5 => "5"
  | 6 => "6" | 7 => "7" | 8 => "8" | 9 => "9" | 10 => "a" | 11 => "b"
  | 12 => "c" | 13 => "d" | 14 => "e" | _ => "f"
  end%char%nat.

Fixpoint toHex (fuel n : nat) (acc : string) : string :=
  match fuel with
  | O => acc
  | S fuel' =>
      let acc' := String (hexDigit (n mod 16)) acc in
      if (n / 16 =? 0)%nat then acc' else toHex fuel' (n / 16) acc'
  end.

Definition toString16 (n : nat) : string := toHex (S n) n "".

(** [String.prototype.padStart(len, fill)] *)
Definition padStart (len : nat) (fill : ascii) (s : string) : string :=
  (string_of_list_ascii (repeat fill (len - String.length s)) ++ s)%string.

(** [`0x${i.toString(16).padStart(40, '0')}`] *)
Definition patternAddress (i : nat) : string :=
  ("0x" ++ padStart 40 "0" (toString16 i))%string.

(** The addresses of the second attempt: [0x00..01] to [0x00..0a], then the
    signer's. *)
Definition checkAddresses (t : TokenContract) : list string :=
  (patternAddress <$> seq 1 10) ++ from_option (fun a => [a]) [] (signerAddress t).

Definition FALLBACK_HOLDERS : Z := 4.

Definition fetchTokenHoldersDirect (c : Contracts) : Z :=
  match
    t ← match token c with Some t => Returned t | None => Thrown TypeError end;
    blockNumber ← getBlockNumber t;
    let fromBlock := Z.max 0 (blockNumber - 100000) in
    events ← queryTransfer t fromBlock;
    let addresses := candidateAddresses c events in
    let holdersCount := countHolders t addresses in
    if (0 <? holdersCount)%nat then mret (Z.of_nat holdersCount) else
    let directHolders := length (List.filter (holdsTokens t) (checkAddresses t)) in
    if (0 <? directHolders)%nat then mret (Z.of_nat directHolders) else
    mret FALLBACK_HOLDERS
  with
  | Returned n => n
  | Thrown _ => FALLBACK_HOLDERS
  end.

(** ** [fetchTokenHoldersFromEtherscan] *)

(** An entry of the [tokeninfo] answer: [it_count] is
    [parseInt(item.holderCount || item.holders)] when one of the two fields
    is truthy ([Some None] when it does not parse: [NaN]), [None] when
    neither is. *)
Record TokenInfo : Type := { it_count : option (option Z) }.

(** The [result] field of an API answer: missing or falsy, an array, or
    some other truthy value (an error text, say). *)
Inductive ApiResult : Type :=
  | NoResult
  | ResultItems (items : list TokenInfo)
  | OtherResult.

Record ApiAnswer : Type := { status : string; result : ApiResult }.

(** The explorer: [fetch(url)] followed by [response.json()]. *)
Record Explorer : Type := {
  networkId : Z;
  fetchJson : string -> outcome ApiAnswer
}.

Definition ETHERSCAN_API_KEY : string := "YourEtherscanAPIKey".

Definition baseUrl (networkId : Z) : string :=
  if networkId =? 11155111 then "https://api-sepolia.etherscan.io/api"
  else if networkId =? 5 then "https://api-goerli.etherscan.io/api"
  else if networkId =? 42161 then "https://api.arbiscan.io/api"
  else if networkId =? 137 then "https://api.polygonscan.com/api"
  else if networkId =? 10 then "https://api-optimistic.etherscan.io/api"
  else "https://api.etherscan.io/api".

Definition apiUrl (networkId : Z) (action tokenAddress : string) : string :=
  (baseUrl networkId ++ "?module=token&action=" ++ action ++ "&contractaddress="
     ++ tokenAddress ++ "&apikey=" ++ ETHERSCAN_API_KEY)%string.

(** [count > 0 ? count : 4]; [NaN > 0] is false. *)
Definition positiveOr4 (count : option Z) : Z :=
  match count with
  | Some n => if 0 <? n then n else FALLBACK_HOLDERS
  | None => FALLBACK_HOLDERS
  end.

(** The [else] branch: the [tokeninfo] endpoint, then the direct count.
    [OtherResult] either has no positive [length] or no [find]: both ways the
    direct count is what is returned. *)
Definition holdersFromTokenInfo (x : Explorer) (c : Contracts) (tokenAddress : string)
  : outcome Z :=
  statsData ← fetchJson x (apiUrl (networkId x) "tokeninfo" tokenAddress);
  let direct := mret (fetchTokenHoldersDirect c) in
  if String.eqb (status statsData) "1" then
    match result statsData with
    | ResultItems items =>
        match List.find (fun item => bool_decide (is_Some (it_count item))) items with
        | Some tokenInfo => mret (positiveOr4 (from_option id None (it_count tokenInfo)))
        | None => direct
        end
    | OtherResult => direct
    | NoResult => direct
    end
  else direct.

Definition fetchTokenHoldersFromEtherscan (x : Explorer) (c : Contracts) : Z :=
  match token c ≫= address with
  | None => FALLBACK_HOLDERS
  | Some tokenAddress =>
      match
        data ← fetchJson x (apiUrl (networkId x) "tokenholderlist" tokenAddress);
        if String.eqb (status data) "1" then
          match result data with
          | ResultItems items =>
              mret (positiveOr4 (Some (Z.of_nat (length items))))
          | OtherResult => mret (positiveOr4 (Some 0))
          | NoResult => holdersFromTokenInfo x c tokenAddress
          end
        else holdersFromTokenInfo x c tokenAddress
      with
      | Returned n => n
      | Thrown _ => fetchTokenHoldersDirect c
      end
  end.

(** ** [fetchSupplyData] *)

Section SupplyFormat.

(** [parseFloat(ethers.utils.formatEther(x)).toFixed(2)] *)
Variable formatSupply : Z -> string.

Record SupplyData : Type := {
  circulatingSupply : string;
  totalTokenSupply : string
}.

(** The treasury balance after the analytics attempt: 0 unless the helper
    answers with a truthy balance that converts. *)
Definition treasuryFromAnalytics (c : Contracts) : Z :=
  match tokenDistribution c with
  | Some (Returned (Some analytics)) =>
      match treasuryBalance analytics with
      | Some (Returned balance) => balance
      | Some (Thrown _) | None => 0
      end
  | _ => 0
  end.

(** "If we didn't get a treasury balance, try the governance contract
    balance". *)
Definition treasuryOf (c : Contracts) (t : TokenContract) : Z :=
  let fromAnalytics := treasuryFromAnalytics c in
  if fromAnalytics =? 0 then
    match
      governance ← match governanceAddress c with
                   | Some a => Returned a
                   | None => Thrown TypeError
                   end;
      balanceOf t governance
    with
    | Returned balance => balance
    | Thrown _ => fromAnalytics
    end
  else fromAnalytics.

Definition fetchSupplyData (c : Contracts) : SupplyData :=
  match
    t ← match token c with Some t => Returned t | None => Thrown TypeError end;
    total ← totalSupply t;
    let treasury := treasuryOf c t in
    mret {| circulatingSupply := formatSupply (total - treasury);
            totalTokenSupply := formatSupply total |}
  with
  | Returned d => d
  | Thrown _ => {| circulatingSupply := "0"; totalTokenSupply := "0" |}
  end.

End SupplyFormat.

End Holders.

(* ===================================================================== *)
(** * Observable effects: React state setters and the vote transaction *)
(* ===================================================================== *)

Module Effects.
Import Js.

(** The [voting] state of [useVoting]. *)
Record VotingState : Type := {
  loading : bool;
  voting_error : option error;
  success : bool;
  lastVotedProposalId : option Z
}.

Inductive Effect : Type :=
  | SetVoting (v : VotingState)                 (* [setVoting(...)] *)
  | SendVoteTx (proposalId voteType gasLimit : Z)
                                                (* [contracts.governance.castVote(...)] *)
  | SetVotedProposals (m : gmap Z Z)            (* [setVotedProposals(...)] *)
  | Alert (e : error).                          (* [alert(...)] *)

(** A computation that may throw, together with the effects it performed, in
    program order. *)
Definition M (A : Type) : Type := (outcome A * list Effect)%type.

Definition ret {A} (a : A) : M A := (Returned a, []).
Definition throw {A} (e : error) : M A := (Thrown e, []).
Definition emit (ev : Effect) : M unit := (Returned tt, [ev]).
Definition lift {A} (o : outcome A) : M A := (o, []).

Definition bind {A B} (f : A -> M B) (m : M A) : M B :=
  match m with
  | (Returned a, t) => let '(r, t') := f a in (r, t ++ t')
  | (Thrown e, t) => (Thrown e, t)
  end.

Definition mtry {A} (body : M A) (handler : error -> M A) : M A :=
  match body with
  | (Returned a, t) => (Returned a, t)
  | (Thrown e, t) => let '(r, t') := handler e in (r, t ++ t')
  end.

#[global] Instance M_ret : MRet M := @ret.
#[global] Instance M_bind : MBind M := @bind.

Definition is_send (ev : Effect) : bool :=
  match ev with SendVoteTx _ _ _ => true | _ => false end.

(** The transactions a run handed to the ledger. *)
Definition submissions (t : list Effect) : list Effect :=
  List.filter is_send t.

(** The value of the [votedProposals] state once the setters of a trace have
    run. *)
Definition votedProposalsAfter (before : gmap Z Z) (t : list Effect) : gmap Z Z :=
  fold_left (fun m ev => match ev with SetVotedProposals m' => m' | _ => m end)
            t before.

End Effects.

(* ===================================================================== *)
(** * [useVoting] *)
(* ===================================================================== *)

Module Voting.
Import Js Web3 Effects.

(** ** [getProposalVoteTotals] *)

(** The object the function returns.  The percentage properties are missing
    ([None]) from the object literals of the two early returns. *)
Record Tally : Type := {
  yesVotes : Z;
  noVotes : Z;
  abstainVotes : Z;
  totalVotes : Z;
  totalVoters : nat;
  yesPercentage : option Q;
  noPercentage : option Q;
  abstainPercentage : option Q
}.

(** [{ yesVotes: 0, noVotes: 0, abstainVotes: 0, totalVotes: 0, totalVoters: 0 }] *)
Definition earlyZeroTally : Tally :=
  {| yesVotes := 0; noVotes := 0; abstainVotes := 0; totalVotes := 0;
     totalVoters := 0;
     yesPercentage := None; noPercentage := None; abstainPercentage := None |}.

(** The object of the final [catch]: the same, with the three percentages 0. *)
Definition errorZeroTally : Tally :=
  {| yesVotes := 0; noVotes := 0; abstainVotes := 0; totalVotes := 0;
     totalVoters := 0;
     yesPercentage := Some 0%Q; noPercentage := Some 0%Q;
     abstainPercentage := Some 0%Q |}.

(** The mutable locals of the counting code: the three sums and the [voters]
    set. *)
Record Counts : Type := {
  c_yes : Z;
  c_no : Z;
  c_abstain : Z;
  c_voters : gset string
}.

Definition noCounts : Counts :=
  {| c_yes := 0; c_no := 0; c_abstain := 0; c_voters := ∅ |}.

(** [voters.add(voter)] *)
Definition addVoter (voter : string) (c : Counts) : Counts :=
  {| c_yes := c_yes c; c_no := c_no c; c_abstain := c_abstain c;
     c_voters := {[ voter ]} ∪ c_voters c |}.

(** [if (support === 0) noVotes += p; else if (support === 1) yesVotes += p;
     else if (support === 2) abstainVotes += p;]
    The sums are exact here; [Doubles.addPower] is the same step with the
    addition rounded to a double, and agrees while the sums are safe
    integers. *)
Definition addPower (support votingPower : Z) (c : Counts) : Counts :=
  if support =? 0 then
    {| c_yes := c_yes c; c_no := c_no c + votingPower;
       c_abstain := c_abstain c; c_voters := c_voters c |}
  else if support =? 1 then
    {| c_yes := c_yes c + votingPower; c_no := c_no c;
       c_abstain := c_abstain c; c_voters := c_voters c |}
  else if support =? 2 then
    {| c_yes := c_yes c; c_no := c_no c;
       c_abstain := c_abstain c + votingPower; c_voters := c_voters c |}
  else c.

Definition parseLog (log : Log) : outcome (string * Z * Z) :=
  match log with
  | Malformed => Thrown (Upstream "no matching event")
  | VoteCast voter support votingPower => Returned (voter, support, votingPower)
  end.

(** One iteration of [for (const log of logs)], with its [try]/[catch]: a log
    that fails to parse, or whose voting power overflows, is skipped. *)
Definition countLog (c : Counts) (log : Log) : Counts :=
  match
    parsed ← parseLog log;
    let '(voter0, support, power) := parsed in
    let voter := toLowerCase voter0 in
    votingPower ← toNumber power;
    mret (addPower support votingPower (addVoter voter c))
  with
  | Returned c' => c'
  | Thrown _ => c
  end.

Definition countLogs (logs : list Log) : Counts :=
  fold_left countLog logs noCounts.

(** Step 2, "account-specific vote data for connected account", with its
    [try]/[catch].  [voters.add] runs before [voterInfo.toNumber()], so an
    overflow leaves the account in the set without adding weight. *)
Definition foldAccountVote (g : Governance) (proposalId : Z) (acct : string)
    (c : Counts) : Counts :=
  match proposalVoterInfo g proposalId acct with
  | Thrown _ => c
  | Returned voterInfo =>
      if voterInfo =? 0 then c else
      match queryVoteCast g proposalId acct with
      | Thrown _ => c
      | Returned userEvents =>
          match last userEvents with
          | None => c
          | Some latestEvent =>
              let support := ev_support latestEvent in
              if bool_decide (toLowerCase acct ∈ c_voters c) then c
              else
                let c' := addVoter (toLowerCase acct) c in
                match toNumber voterInfo with
                | Thrown _ => c'
                | Returned votingPower => addPower support votingPower c'
                end
          end
      end
  end.

Definition withAccount (g : Governance) (proposalId : Z) (acct : option string)
    (c : Counts) : Counts :=
  match acct with
  | Some a => foldAccountVote g proposalId a c
  | None => c
  end.

(** [(part / totalVotes) * 100], exact; the source rounds the quotient and
    the product to doubles. *)
Definition percentOf (part total : Z) : Q :=
  ((inject_Z part / inject_Z total) * 100)%Q.

(** The final object: totals, distinct voters, and the percentages, which
    stay 0 unless [totalVotes > 0]. *)
Definition tallyOf (c : Counts) : Tally :=
  let total := c_yes c + c_no c + c_abstain c in
  {| yesVotes := c_yes c;
     noVotes := c_no c;
     abstainVotes := c_abstain c;
     totalVotes := total;
     totalVoters := size (c_voters c);
     yesPercentage := Some (if 0 <? total then percentOf (c_yes c) total else 0%Q);
     noPercentage := Some (if 0 <? total then percentOf (c_no c) total else 0%Q);
     abstainPercentage :=
       Some (if 0 <? total then percentOf (c_abstain c) total else 0%Q) |}.

(** [ethers.utils.hexlify(proposalId)] rejects numbers that are negative or
    not safe integers. *)
Definition hexlify (n : Z) : outcome Z :=
  if (0 <=? n) && (n <? 2 ^ 53 - 1) then Returned n
  else Thrown (Upstream "invalid hexlify value").

Definition getProposalVoteTotals (w : Context) (proposalId : Z) : outcome Tally :=
  try_catch
    (match governance w with
     | None => Returned earlyZeroTally
     | Some g =>
         if negb (provider g) then Returned earlyZeroTally else
         match getProposalState g proposalId with
         | Thrown _ => Returned earlyZeroTally
         | Returned _ =>
             _ ← hexlify proposalId;
             logs ← getLogs g proposalId;
             mret (tallyOf (withAccount g proposalId (account w) (countLogs logs)))
         end
     end)
    (fun _ => Returned errorZeroTally).

(** ** [getProposalSnapshotId] *)

(** [decoded[1].toNumber()] of the creation event, inside the inner [try]. *)
Definition decodeSnapshot (ev : ProposalEvent) : outcome Z :=
  raw ← ev_snapshot ev; toNumber raw.

(** [contracts.token.getCurrentSnapshotId()]; a missing token contract makes
    the property access throw. *)
Definition currentSnapshot (w : Context) : outcome Z :=
  match token w with
  | Some t => getCurrentSnapshotId t
  | None => Thrown TypeError
  end.

Definition getProposalSnapshotId (w : Context) (proposalId : Z) : outcome Z :=
  match governance w with
  | None => Returned 0
  | Some g =>
      try_catch
        (events ← queryProposalCreated g proposalId;
         match events with
         | creationEvent :: _ =>
             try_catch (decodeSnapshot creationEvent) (fun _ => currentSnapshot w)
         | [] => currentSnapshot w
         end)
        (fun _ => try_catch (currentSnapshot w) (fun _ => Returned 0))
  end.

(** ** [hasVoted] *)

Definition hasVoted (w : Context) (proposalId : Z) : outcome bool :=
  match isConnected w && contractsReady w, account w, governance w with
  | true, Some acct, Some g =>
      try_catch
        (voterInfo ← proposalVoterInfo g proposalId acct;
         mret (negb (voterInfo =? 0)))
        (fun _ => Returned false)
  | _, _, _ => Returned false
  end.

Section Formatting.

(** [ethers.utils.formatEther], which prints an amount of wei as a decimal
    string. *)
Variable formatEther : Z -> string.

(** ** [getVotingPower] *)

Definition getVotingPower (w : Context) (snapshotId : option Z) : outcome string :=
  match isConnected w && contractsReady w, account w, token w with
  | true, Some acct, Some t =>
      try_catch
        (actualSnapshotId ←
           match snapshotId with
           | Some s => if s =? 0 then getCurrentSnapshotId t else Returned s
           | None => getCurrentSnapshotId t
           end;
         votingPower ← getEffectiveVotingPower t (Some acct) actualSnapshotId;
         mret (formatEther votingPower))
        (fun _ => Returned "0"%string)
  | _, _, _ => Returned "0"%string
  end.

(** ** [getVoteDetails] *)

Record VoteDetails : Type := {
  vd_hasVoted : bool;
  vd_votingPower : string;
  vd_voteType : option Z
}.

(** [{ hasVoted: false, votingPower: "0", voteType: null }] *)
Definition notVoted : VoteDetails :=
  {| vd_hasVoted := false; vd_votingPower := "0"; vd_voteType := None |}.

Definition getVoteDetails (w : Context) (proposalId : Z) : outcome VoteDetails :=
  match isConnected w && contractsReady w, account w with
  | true, Some acct =>
      try_catch
        (g ← match governance w with
             | Some g => Returned g
             | None => Thrown TypeError
             end;
         voterInfo ← proposalVoterInfo g proposalId acct;
         if voterInfo =? 0 then mret notVoted else
         let votingPower := formatEther voterInfo in
         voteType ←
           try_catch
             (events ← queryVoteCast g proposalId acct;
              mret (ev_support <$> last events))
             (fun _ => Returned None);
         mret {| vd_hasVoted := true; vd_votingPower := votingPower;
                 vd_voteType := voteType |})
        (fun _ => Returned notVoted)
  | _, _ => Returned notVoted
  end.

(** ** [castVote] *)

(** [VOTE_TYPES] of [utils/constants]: the values the error message of
    [castVote] spells out, "0 (Against), 1 (For), or 2 (Abstain)". *)
Definition AGAINST : Z := 0.
Definition FOR : Z := 1.
Definition ABSTAIN : Z := 2.

(** [[AGAINST, FOR, ABSTAIN].includes(Number(voteType))] *)
Definition validVoteType (voteType : Z) : bool :=
  (voteType =? AGAINST) || (voteType =? FOR) || (voteType =? ABSTAIN).

Definition GAS_LIMIT : Z := 300000.

Record CastResult : Type := {
  cr_success : bool;
  cr_votingPower : string;
  cr_voteType : Z;
  cr_transactionHash : string
}.

Definition votingStarted : VotingState :=
  {| loading := true; voting_error := None; success := false;
     lastVotedProposalId := None |}.
Definition votingSucceeded (proposalId : Z) : VotingState :=
  {| loading := false; voting_error := None; success := true;
     lastVotedProposalId := Some proposalId |}.
Definition votingFailed (err : error) : VotingState :=
  {| loading := false; voting_error := Some err; success := false;
     lastVotedProposalId := None |}.

(** [throw new Error(...)] under a condition. *)
Definition throwIf (cond : bool) (e : error) : M unit :=
  if cond then throw e else ret tt.

(** Sending the transaction and awaiting its receipt. *)
Definition awaitReceipt (r : TxResult) : outcome (string * Z) :=
  match r with
  | Rejected e | Reverted e => Thrown e
  | Confirmed transactionHash blockNumber => Returned (transactionHash, blockNumber)
  end.

(** The check for the emitted event after the receipt only logs; it has its
    own [try]/[catch] and changes nothing, so it is left out. *)
Definition castVote (w : Context) (proposalId voteType : Z) : M CastResult :=
  if negb (isConnected w && contractsReady w) then throw NotConnected else
  match governance w with
  | None => throw GovernanceNotInitialized
  | Some g =>
      mtry
        (emit (SetVoting votingStarted);;
         throwIf (negb (validVoteType voteType)) InvalidVoteType;;
         proposalState ← lift (getProposalState g proposalId);
         throwIf (negb (proposalState =? 0)) ProposalNotActive;;
         hasAlreadyVoted ← lift (hasVoted w proposalId);
         throwIf hasAlreadyVoted AlreadyVoted;;
         snapshotId ← lift (getProposalSnapshotId w proposalId);
         votingPower ←
           lift (match token w with
                 | Some t => getEffectiveVotingPower t (account w) snapshotId
                 | None => Thrown TypeError
                 end);
         throwIf (votingPower =? 0) NoVotingPower;;
         emit (SendVoteTx proposalId voteType GAS_LIMIT);;
         receipt ← lift (awaitReceipt (sendCastVote g proposalId voteType));
         emit (SetVoting (votingSucceeded proposalId));;
         mret {| cr_success := true;
                 cr_votingPower := formatEther votingPower;
                 cr_voteType := voteType;
                 cr_transactionHash := receipt.1 |})
        (fun err => emit (SetVoting (votingFailed err));; throw err)
  end.

End Formatting.

End Voting.

(* ===================================================================== *)
(** * The counting code of [getProposalVoteTotals] in double precision *)
(* ===================================================================== *)

(** The same steps as in [Voting], with every [+=] and [+] rounded as
    JavaScript rounds it. *)
Module Doubles.
Import Js Web3 Voting.

Definition addPower (support votingPower : Z) (c : Counts) : Counts :=
  if support =? 0 then
    {| c_yes := c_yes c; c_no := addDouble (c_no c) votingPower;
       c_abstain := c_abstain c; c_voters := c_voters c |}
  else if support =? 1 then
    {| c_yes := addDouble (c_yes c) votingPower; c_no := c_no c;
       c_abstain := c_abstain c; c_voters := c_voters c |}
  else if support =? 2 then
    {| c_yes := c_yes c; c_no := c_no c;
       c_abstain := addDouble (c_abstain c) votingPower; c_voters := c_voters c |}
  else c.

Definition countLog (c : Counts) (log : Log) : Counts :=
  match
    parsed ← parseLog log;
    let '(voter0, support, power) := parsed in
    let voter := toLowerCase voter0 in
    votingPower ← toNumber power;
    mret (addPower support votingPower (addVoter voter c))
  with
  | Returned c' => c'
  | Thrown _ => c
  end.

Definition countLogs (logs : list Log) : Counts :=
  fold_left countLog logs noCounts.

Definition foldAccountVote (g : Governance) (proposalId : Z) (acct : string)
    (c : Counts) : Counts :=
  match proposalVoterInfo g proposalId acct with
  | Thrown _ => c
  | Returned voterInfo =>
      if voterInfo =? 0 then c else
      match queryVoteCast g proposalId acct with
      | Thrown _ => c
      | Returned userEvents =>
          match last userEvents with
          | None => c
          | Some latestEvent =>
              let support := ev_support latestEvent in
              if bool_decide (toLowerCase acct ∈ c_voters c) then c
              else
                let c' := addVoter (toLowerCase acct) c in
                match toNumber voterInfo with
                | Thrown _ => c'
                | Returned votingPower => addPower support votingPower c'
                end
          end
      end
  end.

Definition withAccount (g : Governance) (proposalId : Z) (acct : option string)
    (c : Counts) : Counts :=
  match acct with
  | Some a => foldAccountVote g proposalId a c
  | None => c
  end.

(** [yesVotes + noVotes + abstainVotes] *)
Definition totalOf (c : Counts) : Z :=
  addDouble (addDouble (c_yes c) (c_no c)) (c_abstain c).

End Doubles.

(* ===================================================================== *)
(** * [VoteTab] *)
(* ===================================================================== *)

Module VoteTab.
Import Js Web3 Effects.

(** [submitVote], given the [castVote] prop and the [votedProposals] value of
    the render that created the handler.  Both setter calls start from a copy
    of that captured value. *)
Definition submitVote {R} (castVote : Z -> Z -> M R) (votedProposals : gmap Z Z)
    (proposalId support : Z) : M unit :=
  mtry
    (emit (SetVotedProposals (<[proposalId := support]> votedProposals));;
     _ ← castVote proposalId support;
     mret tt)
    (fun error =>
       emit (Alert error);;
       emit (SetVotedProposals (delete proposalId votedProposals))).

(** [votedProposals[proposal.id] !== undefined] *)
Definition locallyVoted (votedProposals : gmap Z Z) (proposalId : Z) : bool :=
  bool_decide (is_Some (votedProposals !! proposalId)).

(** The vote counts of a proposal as [parseFloat] reads them. *)
Record Proposal : Type := {
  p_yesVotes : float;
  p_noVotes : float;
  p_abstainVotes : float
}.

(** [x || 0]: [NaN] and [0] are falsy, every other number is kept, the
    infinities included. *)
Definition orZero (x : float) : float :=
  match x with
  | FNaN => FNum 0
  | _ => x
  end.

Record VoteData : Type := {
  vd_yesVotes : float;
  vd_noVotes : float;
  vd_abstainVotes : float;
  vd_totalVotes : float;
  vd_yesPercentage : float;
  vd_noPercentage : float;
  vd_abstainPercentage : float
}.

(** [totalVotes > 0 ? (part / totalVotes) * 100 : 0]; a finite quotient is
    exact here and rounded to a double by the source. *)
Definition percentage (part total : float) : float :=
  if fpositive total then fscale (fdiv part total) 100 else FNum 0.

Definition calculateVotePercentages (proposal : Proposal) : VoteData :=
  let yesVotes := orZero (p_yesVotes proposal) in
  let noVotes := orZero (p_noVotes proposal) in
  let abstainVotes := orZero (p_abstainVotes proposal) in
  let totalVotes := fadd (fadd yesVotes noVotes) abstainVotes in
  {| vd_yesVotes := yesVotes;
     vd_noVotes := noVotes;
     vd_abstainVotes := abstainVotes;
     vd_totalVotes := totalVotes;
     vd_yesPercentage := percentage yesVotes totalVotes;
     vd_noPercentage := percentage noVotes totalVotes;
     vd_abstainPercentage := percentage abstainVotes totalVotes |}.

End VoteTab.

(* ===================================================================== *)
(** * [VoteTab]: the proposal list and the vote badge *)
(* ===================================================================== *)

Module VoteTabView.
Import Js Web3 Effects Voting VoteTab.

(** [PROPOSAL_STATES.ACTIVE] of [utils/constants]: the state [castVote]
    compares against, "0 = Active". *)
Definition ACTIVE : Z := 0.

(** The fields of a proposal that the list and the badge read. *)
Record Item : Type := {
  id : Z;
  state : Z;
  hasVoted : bool;
  votedYes : bool;
  votedNo : bool
}.

(** The three filter buttons. *)
Inductive VoteFilter : Type := FilterActive | FilterVoted | FilterAll.

(** The effect "Initialize votedProposals from the proposals data": the
    assignments to [voteType] run in order, so [votedNo] has the last word. *)
Definition recordedType (proposal : Item) : Z :=
  let voteType := ABSTAIN in
  let voteType := if votedYes proposal then FOR else voteType in
  let voteType := if votedNo proposal then AGAINST else voteType in
  voteType.

Definition votedFromProposals (proposals : list Item) : gmap Z Z :=
  fold_left
    (fun voted proposal =>
       if hasVoted proposal
       then <[id proposal := recordedType proposal]> voted
       else voted)
    proposals ∅.

(** [filteredProposals] *)
Definition keeps (voteFilter : VoteFilter) (votedProposals : gmap Z Z)
    (proposal : Item) : bool :=
  match voteFilter with
  | FilterActive => state proposal =? ACTIVE
  | FilterVoted => hasVoted proposal || locallyVoted votedProposals (id proposal)
  | FilterAll => true
  end.

Definition filteredProposals (proposals : list Item) (votedProposals : gmap Z Z)
    (voteFilter : VoteFilter) : list Item :=
  List.filter (keeps voteFilter votedProposals) proposals.

Definition hasUserVoted (votedProposals : gmap Z Z) (proposal : Item) : bool :=
  hasVoted proposal || locallyVoted votedProposals (id proposal).

(** [getUserVoteType]: the local record first, then the proposal's flags;
    [None] is [null]. *)
Definition getUserVoteType (votedProposals : gmap Z Z) (proposal : Item) : option Z :=
  match votedProposals !! id proposal with
  | Some voteType => Some voteType
  | None =>
      if votedYes proposal then Some FOR
      else if votedNo proposal then Some AGAINST
      else if hasVoted proposal then Some ABSTAIN
      else None
  end.

Definition getVoteTypeText (voteType : option Z) : string :=
  match voteType with
  | Some v =>
      if v =? FOR then "Yes"
      else if v =? AGAINST then "No"
      else if v =? ABSTAIN then "Abstain"
      else ""
  | None => ""
  end.

(** Every local record holds one of the three vote types. *)
Definition validRecords (votedProposals : gmap Z Z) : Prop :=
  forall proposalId voteType,
    votedProposals !! proposalId = Some voteType -> validVoteType voteType = true.

End VoteTabView.

(* ===================================================================== *)
(** * Reference notions the properties are stated with *)
(* ===================================================================== *)

Module Reference.
Import Js Web3 Effects Voting.

(** The state query succeeded and [getLogs] answered [logs]: the counting
    code of [getProposalVoteTotals] runs on [logs]. *)
Definition logsFetched (w : Context) (proposalId : Z) (g : Governance)
    (logs : list Log) : Prop :=
  governance w = Some g /\ provider g = true /\
  is_returned (getProposalState g proposalId) = true /\
  0 <= proposalId < 2 ^ 53 - 1 /\
  getLogs g proposalId = Returned logs.

(** The voter of a log the counting loop accepts (it parses and its voting
    power fits a JavaScript number). *)
Definition countedVoter (log : Log) : option string :=
  match log with
  | VoteCast voter _ votingPower =>
      if votingPower <? 2 ^ 53 then Some voter else None
  | Malformed => None
  end.

Definition countedVoters (logs : list Log) : list string :=
  omap countedVoter logs.


(** Number of distinct addresses in a list, letter case ignored. *)
Definition distinctIgnoringCase (addrs : list string) : nat :=
  length (remove_dups (toLowerCase <$> addrs)).

(** What the direct query says about the connected account: its support
    choice (from its latest event) and its weight. *)
Definition directRecord (g : Governance) (proposalId : Z) (acct : string)
  : option (Z * Z) :=
  match proposalVoterInfo g proposalId acct, queryVoteCast g proposalId acct with
  | Returned voterInfo, Returned events =>
      if voterInfo =? 0 then None
      else (fun ev => (ev_support ev, voterInfo)) <$> last events
  | _, _ => None
  end.

(** What the logs say about an address: the support and weight of its
    events, in log order. *)
Definition isVoteOf (acct : string) (log : Log) : bool :=
  match log with
  | VoteCast voter _ _ => String.eqb (toLowerCase voter) (toLowerCase acct)
  | Malformed => false
  end.

Definition loggedRecords (acct : string) (logs : list Log) : list (Z * Z) :=
  omap (fun log => match log with
                   | VoteCast _ support power => Some (support, power)
                   | Malformed => None
                   end)
       (List.filter (isVoteOf acct) logs).

(** The tally in which the direct query overrides the logs for the connected
    account: its logged events are set aside and its direct record is counted
    in their place. *)
Definition directQueryWinsTally (logs : list Log) (acct : string)
    (support weight : Z) : Tally :=
  tallyOf (addPower support weight
             (addVoter (toLowerCase acct)
                (countLogs (List.filter (fun log => negb (isVoteOf acct log)) logs)))).

(** The reading under which the direct query wins: whenever the connected
    account has events in the logs and the direct query reports a different
    choice or weight for it, the tally is the one in which the direct record
    replaces the logged one. *)
Definition directQueryWins : Prop :=
  forall w proposalId g logs acct support weight,
    logsFetched w proposalId g logs ->
    account w = Some acct ->
    loggedRecords acct logs <> [] ->
    directRecord g proposalId acct = Some (support, weight) ->
    loggedRecords acct logs <> [ (support, weight) ] ->
    getProposalVoteTotals w proposalId =
      Returned (directQueryWinsTally logs acct support weight).

(** The reading under which a missing proposal makes the reconstruction fail:
    whenever the state query rejects, the operation raises [NotFound]. *)
Definition missingProposalRaisesNotFound : Prop :=
  forall w proposalId g e,
    governance w = Some g ->
    getProposalState g proposalId = Thrown e ->
    getProposalVoteTotals w proposalId = Thrown NotFound.


(** The three percentages of a tally, when the object carries them. *)
Definition percentages (t : Tally) : option (Q * Q * Q) :=
  y ← yesPercentage t; n ← noPercentage t; a ← abstainPercentage t;
  Some (y, n, a).

(** The local validations of [castVote], as conditions on the context. *)
Definition proposalInactive (w : Context) (proposalId : Z) : Prop :=
  exists g state, governance w = Some g /\
    getProposalState g proposalId = Returned state /\ state <> 0.

Definition voteRecorded (w : Context) (proposalId : Z) : Prop :=
  exists g acct voterInfo, governance w = Some g /\ account w = Some acct /\
    proposalVoterInfo g proposalId acct = Returned voterInfo /\ voterInfo <> 0.

(** The voting-power read of [castVote]: at the resolved snapshot, for the
    connected account. *)
Definition resolvedVotingPower (w : Context) (proposalId : Z) : outcome Z :=
  snapshotId ← getProposalSnapshotId w proposalId;
  match token w with
  | Some t => getEffectiveVotingPower t (account w) snapshotId
  | None => Thrown TypeError
  end.

Definition validationFails (w : Context) (proposalId voteType : Z) : Prop :=
  validVoteType voteType = false \/
  proposalInactive w proposalId \/
  voteRecorded w proposalId \/
  resolvedVotingPower w proposalId = Returned 0.

(** An error raised by [castVote] answers to a condition that holds: the
    precondition or validation it names is violated, or it is the rejection
    of one of the two ledger reads that precede the submission. *)
Definition errorJustified (w : Context) (proposalId voteType : Z) (e : error)
  : Prop :=
  (e = NotConnected /\ isConnected w && contractsReady w = false) \/
  (e = GovernanceNotInitialized /\ governance w = None) \/
  (e = InvalidVoteType /\ validVoteType voteType = false) \/
  (e = ProposalNotActive /\ proposalInactive w proposalId) \/
  (e = AlreadyVoted /\ voteRecorded w proposalId) \/
  (e = NoVotingPower /\ resolvedVotingPower w proposalId = Returned 0) \/
  (exists g, governance w = Some g /\ getProposalState g proposalId = Thrown e) \/
  resolvedVotingPower w proposalId = Thrown e.

(** The voting power a log contributes to the bucket of a support value:
    its own, when the loop accepts it and its support is that value. *)
Definition acceptedPower (support : Z) (log : Log) : Z :=
  match log with
  | VoteCast _ s votingPower =>
      if (votingPower <? 2 ^ 53) && (s =? support) then votingPower else 0
  | Malformed => 0
  end.

(** Sum of the accepted voting power cast with a support value. *)
Definition powerFor (support : Z) (logs : list Log) : Z :=
  foldr (fun log total => acceptedPower support log + total) 0 logs.

(** The connected account does not vote in any accepted log. *)
Definition unlogged (acct : string) (logs : list Log) : Prop :=
  Forall (fun voter => toLowerCase voter <> toLowerCase acct) (countedVoters logs).

(** Weights as the ledger has them (unsigned). *)
Definition unsignedWeights (g : Governance) (proposalId : Z) (acct : option string)
    (logs : list Log) : Prop :=
  Forall (fun log => match log with
                     | VoteCast _ _ votingPower => 0 <= votingPower
                     | Malformed => True
                     end) logs /\
  (forall a voterInfo, acct = Some a ->
     proposalVoterInfo g proposalId a = Returned voterInfo -> 0 <= voterInfo).

(** Two ledgers give the same answers about the connected account's vote. *)
Definition sameDirectAnswers (g1 g2 : Governance) (proposalId : Z)
    (acct : option string) : Prop :=
  forall a, acct = Some a ->
    proposalVoterInfo g1 proposalId a = proposalVoterInfo g2 proposalId a /\
    queryVoteCast g1 proposalId a = queryVoteCast g2 proposalId a.

(** A percentage between 0 and 100. *)
Definition isPercentage (q : Q) : Prop := (0 <= q)%Q /\ (q <= 100)%Q.

(** A rate outside the plausible range of [fetchGovernanceMetrics]. *)
Definition implausible (x : number) : Prop :=
  match x with
  | NaN => True
  | Num q => (q <= 1 # 100)%Q \/ (1 < q)%Q
  end.

Definition inPlausibleRange (x : number) : Prop :=
  exists q, x = Num q /\ (1 # 100 < q)%Q /\ (q <= 1)%Q.


(** The weight the direct query records for the connected account, as far as
    it can be added: a recorded weight that does not fit a JavaScript number
    is never added. *)
Definition directWeight (g : Governance) (proposalId : Z) (acct : option string)
  : Z :=
  match acct with
  | None => 0
  | Some a =>
      match proposalVoterInfo g proposalId a with
      | Returned voterInfo => if voterInfo <? 2 ^ 53 then voterInfo else 0
      | Thrown _ => 0
      end
  end.

(** The weights are unsigned and everything the counting code can add up --
    the accepted power of all logs and the connected account's recorded
    weight -- stays a safe integer.  In that range the additions of the
    source, which are additions of doubles, are exact. *)
Definition safeSums (g : Governance) (proposalId : Z) (acct : option string)
    (logs : list Log) : Prop :=
  unsignedWeights g proposalId acct logs /\
  powerFor 1 logs + powerFor 0 logs + powerFor 2 logs
    + directWeight g proposalId acct <= MAX_SAFE_INTEGER.

(** The snapshot the creation event of a proposal carries: the one decoded
    from the first [ProposalEvent], when the query answers with at least one
    event and the decoding succeeds. *)
Definition createdSnapshot (g : Governance) (proposalId : Z) : option Z :=
  match queryProposalCreated g proposalId with
  | Returned (creationEvent :: _) =>
      match decodeSnapshot creationEvent with
      | Returned snapshotId => Some snapshotId
      | Thrown _ => None
      end
  | _ => None
  end.

(** What the fallback of [getProposalSnapshotId] answers: the token's
    current snapshot, or 0 when that cannot be read. *)
Definition currentSnapshotOrZero (w : Context) : Z :=
  match currentSnapshot w with
  | Returned snapshotId => snapshotId
  | Thrown _ => 0
  end.

(** A vote count that [parseFloat] reads as a finite number that is not
    negative, or cannot read at all. *)
Definition finiteCount (x : float) : Prop :=
  match x with
  | FNaN => True
  | FInf _ => False
  | FNum q => (0 <= q)%Q
  end.

(** A percentage that is a finite number between 0 and 100. *)
Definition finitePercentage (x : float) : Prop :=
  exists q, x = FNum q /\ isPercentage q.

End Reference.

(* ===================================================================== *)
(** * Concrete ledgers used in the examples *)
(* ===================================================================== *)

Module Scenario.
Import Js Web3 Effects Voting.

Definition alice : string := "0xA11CE00000000000000000000000000000000AaA".
Definition alice_lower : string := "0xa11ce00000000000000000000000000000000aaa".
Definition bob : string := "0xB0B0000000000000000000000000000000000bBb".

(** Proposal 7 exists and is active; any other identifier is unknown to the
    contract.  The remaining answers are chosen per scenario. *)
Definition ledger (logs : outcome (list Log)) (voterInfo : outcome Z)
    (userEvents : outcome (list VoteCastEvent)) (tx : TxResult) : Governance :=
  {| provider := true;
     getProposalState := fun id =>
       if id =? 7 then Returned 0 else Thrown (Upstream "call revert exception");
     getProposalCount := None;
     getLogs := fun _ => logs;
     proposalVoterInfo := fun _ _ => voterInfo;
     queryVoteCast := fun _ _ => userEvents;
     queryProposalCreated := fun _ => Returned [ {| ev_snapshot := Returned 3 |} ];
     sendCastVote := fun _ _ => tx |}.

Definition jst (power : outcome Z) : Token :=
  {| getCurrentSnapshotId := Returned 3;
     getEffectiveVotingPower := fun _ _ => power;
     getSnapshotMetrics := fun _ => Thrown (Upstream "call revert exception") |}.

Definition session (g : Governance) (t : Token) (acct : option string) : Context :=
  {| governance := Some g; token := Some t; analyticsHelper := None;
     account := acct; isConnected := true; contractsReady := true |}.

Definition reverted : TxResult := Reverted (Upstream "transaction failed").

(** The specification's scenario: A votes For with 100, B Against with 50,
    and A's event is delivered twice. *)
Definition duplicatedLogs : list Log :=
  [ VoteCast alice 1 100; VoteCast bob 0 50; VoteCast alice 1 100 ].

Definition duplicatedSession : Context :=
  session (ledger (Returned duplicatedLogs) (Returned 0) (Returned []) reverted)
          (jst (Returned 100)) None.

(** The logs show Alice voting For with 100; the direct query shows her
    voting Against with 40. *)
Definition disagreeingSession : Context :=
  session (ledger (Returned [ VoteCast alice 1 100 ]) (Returned 40)
                  (Returned [ {| ev_voter := alice; ev_support := 0 |} ]) reverted)
          (jst (Returned 40)) (Some alice).



(** Alice may vote on proposal 7, and the transaction reverts. *)
Definition revertingSession : Context :=
  session (ledger (Returned []) (Returned 0) (Returned []) reverted)
          (jst (Returned 100)) (Some alice).

Definition printWei (wei : Z) : string := "wei".

(** An analytics helper reporting a turnout of 50 basis points, a success
    rate of 80 percent and nothing delegated; the token's snapshot metrics
    give 4200 basis points delegated in fifth position. *)
Definition helper : AnalyticsHelper :=
  {| getProposalAnalytics :=
       Returned (Some {| avgVotingTurnout := BigNumberField 50;
                         generalSuccessRate := BigNumberField 80 |});
     getTokenDistributionAnalytics :=
       Returned (Some {| percentageDelegated := BigNumberField 0 |}) |}.

Definition snapshotToken : Token :=
  {| getCurrentSnapshotId := Returned 3;
     getEffectiveVotingPower := fun _ _ => Returned 0;
     getSnapshotMetrics := fun _ =>
       Returned (Some {| sm_percentageDelegated := None;
                         sm_items := [ Num 1000; Num 12; Num 7; Num 5; Num 4200 ] |}) |}.

Definition analyticsSession : Context :=
  {| governance := None; token := Some snapshotToken;
     analyticsHelper := Some helper; account := None;
     isConnected := true; contractsReady := true |}.

(** A helper whose turnout field does not parse as a number. *)
Definition garbledSession : Context :=
  {| governance := None; token := None;
     analyticsHelper :=
       Some {| getProposalAnalytics :=
                 Returned (Some {| avgVotingTurnout := OtherField true NaN;
                                   generalSuccessRate := Absent |});
               getTokenDistributionAnalytics := Thrown (Upstream "call revert exception") |};
     account := None; isConnected := true; contractsReady := true |}.

(** No analytics helper, but a token whose snapshot metrics report 42
    percent delegated. *)
Definition helperlessSession : Context :=
  {| governance := None; token := Some snapshotToken;
     analyticsHelper := None; account := None;
     isConnected := true; contractsReady := true |}.

(** A helper reporting 2500 basis points turnout, 64 percent success and
    4100 basis points delegated. *)
Definition healthySession : Context :=
  {| governance := None; token := None;
     analyticsHelper :=
       Some {| getProposalAnalytics :=
                 Returned (Some {| avgVotingTurnout := BigNumberField 2500;
                                   generalSuccessRate := BigNumberField 64 |});
               getTokenDistributionAnalytics :=
                 Returned (Some {| percentageDelegated := BigNumberField 4100 |}) |};
     account := None; isConnected := true; contractsReady := true |}.

(** A token with three transfers among Alice, Bob and the zero address;
    Alice and the governance contract hold tokens, Bob holds none. *)
Definition governanceAddress : string := "0x6000000000000000000000000000000000000C0d".

Definition transfers : list Holders.TransferEvent :=
  [ {| Holders.tr_args := Some (Holders.AddressZero, alice) |};
    {| Holders.tr_args := Some (alice, bob) |};
    {| Holders.tr_args := Some (bob, alice_lower) |};
    {| Holders.tr_args := None |} ].

Definition tokenLedger : Holders.TokenContract :=
  {| Holders.address := Some "0x7000000000000000000000000000000000000001";
     Holders.getBlockNumber := Returned 250000;
     Holders.queryTransfer := fun fromBlock =>
       if fromBlock =? 150000 then Returned transfers
       else Thrown (Upstream "query returned more than 10000 results");
     Holders.balanceOf := fun a =>
       if String.eqb a alice_lower then Returned 70
       else if String.eqb a (toLowerCase governanceAddress) then Returned 30
       else Returned 0;
     Holders.totalSupply := Returned 100;
     Holders.signerAddress := None |}.

Definition tokenContracts : Holders.Contracts :=
  {| Holders.token := Some tokenLedger;
     Holders.governanceAddress := Some governanceAddress;
     Holders.analyticsHelperAddress := None;
     Holders.tokenDistribution := None;
     Holders.account := Some alice |}.

(** An explorer that lists three holders. *)
Definition explorer : Holders.Explorer :=
  {| Holders.networkId := 11155111;
     Holders.fetchJson := fun _ =>
       Returned {| Holders.status := "1";
                   Holders.result :=
                     Holders.ResultItems
                       [ {| Holders.it_count := None |};
                         {| Holders.it_count := None |};
                         {| Holders.it_count := None |} ] |} |}.

(** The logs of [duplicatedSession], delivered in another order. *)
Definition reorderedLogs : list Log :=
  [ VoteCast bob 0 50; VoteCast alice 1 100; VoteCast alice 1 100 ].

Definition reorderedSession : Context :=
  session (ledger (Returned reorderedLogs) (Returned 0) (Returned []) reverted)
          (jst (Returned 100)) None.

(** Only Bob's vote is in the logs; the direct query shows Alice voting
    Against with weight 5. *)
Definition directOnlySession : Context :=
  session (ledger (Returned [ VoteCast bob 1 50 ]) (Returned 5)
                  (Returned [ {| ev_voter := alice; ev_support := 0 |} ]) reverted)
          (jst (Returned 5)) (Some alice).

(** The proposal list of the vote tab: 7 is active and not voted on, 8 is
    closed and was voted No, 9 is active and was voted Yes. *)
Definition proposal7 : VoteTabView.Item :=
  {| VoteTabView.id := 7; VoteTabView.state := 0; VoteTabView.hasVoted := false;
     VoteTabView.votedYes := false; VoteTabView.votedNo := false |}.
Definition proposal8 : VoteTabView.Item :=
  {| VoteTabView.id := 8; VoteTabView.state := 2; VoteTabView.hasVoted := true;
     VoteTabView.votedYes := false; VoteTabView.votedNo := true |}.
Definition proposal9 : VoteTabView.Item :=
  {| VoteTabView.id := 9; VoteTabView.state := 0; VoteTabView.hasVoted := true;
     VoteTabView.votedYes := true; VoteTabView.votedNo := false |}.
Definition proposalList : list VoteTabView.Item := [ proposal7; proposal8; proposal9 ].



(** Four For votes whose weights add up past the safe integers, and the same
    votes delivered in another order. *)
Definition heavyLogs : list Log :=
  [ VoteCast alice 1 (2 ^ 53 - 1); VoteCast bob 1 1; VoteCast bob 1 1;
    VoteCast bob 1 1 ].

Definition heavyLogsReordered : list Log :=
  [ VoteCast bob 1 1; VoteCast bob 1 1; VoteCast bob 1 1;
    VoteCast alice 1 (2 ^ 53 - 1) ].

(** Proposal 7 is active and Alice's vote goes through. *)
Definition confirmingSession : Context :=
  session (ledger (Returned []) (Returned 0) (Returned []) (Confirmed "0xfeed" 12))
          (jst (Returned 100)) (Some alice).

End Scenario.

(* ===================================================================== *)
(** * Proposal-count discovery *)
(* ===================================================================== *)

Section ProposalCount.
Import Js Web3 DAOStats.

Lemma midpoint_bounds (low high : Z) :
  low <= high -> low <= (low + high) / 2 <= high.
Proof.
  intros Hle. split.
  - apply Z.div_le_lower_bound; lia.
  - apply Z.div_le_upper_bound; lia.
Qed.

(** The loop ends for every oracle, existing identifiers contiguous or not. *)
Lemma searchLoop_terminates (probe : Z -> bool) (fuel : nat) :
  forall low high,
    (Z.to_nat (high - low + 1) < fuel)%nat ->
    exists h, searchLoop fuel probe low high = Some h.
Proof.
  induction fuel as [|fuel IH]; intros low high Hfuel; [lia|].
  simpl. destruct (Z.leb_spec low high) as [Hle|Hgt]; [|eauto].
  pose proof (midpoint_bounds low high Hle) as [Hlo Hhi].
  destruct (probe _); apply IH; lia.
Qed.

Lemma binarySearchCount_total (probe : Z -> bool) :
  exists n, binarySearchCount probe = Some n.
Proof.
  unfold binarySearchCount, UPPER_BOUND.
  destruct (searchLoop_terminates probe 1002 0 1000) as [h Hh]; [simpl; lia|].
  rewrite Hh. simpl. eauto.
Qed.

(** Loop invariant: the count lies in [low, high + 1]. *)
Lemma searchLoop_finds (probe : Z -> bool) (n : Z) (Hc : contiguous probe n) (fuel : nat) :
  forall low high,
    0 <= low -> low <= n -> n <= high + 1 ->
    (Z.to_nat (high - low + 1) < fuel)%nat ->
    searchLoop fuel probe low high = Some (n - 1).
Proof.
  induction fuel as [|fuel IH]; intros low high H0 Hlow Hhigh Hfuel; [lia|].
  simpl. destruct (Z.leb_spec low high) as [Hle|Hgt].
  - pose proof (midpoint_bounds low high Hle) as [Hlo Hhi].
    rewrite (Hc ((low + high) / 2)) by lia.
    destruct (Z.ltb_spec ((low + high) / 2) n) as [Hex|Hmiss]; apply IH; lia.
  - f_equal. lia.
Qed.

Lemma linearScanFrom_finds (probe : Z -> bool) (n : Z) (Hc : contiguous probe n) (bound : nat) :
  forall i, 0 <= i -> i <= n -> n - i < Z.of_nat bound ->
    linearScanFrom bound probe i = n.
Proof.
  induction bound as [|bound IH]; intros i H0 Hi Hb; [lia|].
  simpl. rewrite (Hc i H0).
  destruct (Z.ltb_spec i n) as [Hlt|Hge]; [apply IH|]; lia.
Qed.

(** [fetchProposalStats] takes the binary-search branch when the contract
    has no direct counter, and then reports that count as [totalProposals]. *)
Lemma totalProposals_by_search (g : Governance) (n : Z) :
  getProposalCount g = None ->
  0 <= n <= 1000 ->
  contiguous (exists_on g) n ->
  totalProposals g = Some n.
Proof.
  intros Hnone Hn Hc. unfold totalProposals, directCount. rewrite Hnone. simpl.
  unfold binarySearchCount, UPPER_BOUND.
  rewrite (searchLoop_finds (exists_on g) n Hc 1002 0 1000) by (simpl; lia).
  simpl. f_equal. lia.
Qed.

(** C2.  When the existing identifiers are exactly [0 .. n-1] and [n] does not
    exceed the upper bound 1000, the binary search of [fetchProposalStats]
    returns [n], which is also what a linear existence scan returns. *)
Theorem binarySearchCount_matches_linear_scan (probe : Z -> bool) (n : Z) :
  0 <= n <= UPPER_BOUND ->
  contiguous probe n ->
  binarySearchCount probe = Some n /\
  binarySearchCount probe = Some (linearExistenceScan probe).
Proof.
  unfold UPPER_BOUND. intros Hn Hc.
  assert (Hb : binarySearchCount probe = Some n).
  { unfold binarySearchCount, UPPER_BOUND.
    rewrite (searchLoop_finds probe n Hc 1002 0 1000) by (simpl; lia).
    simpl. f_equal. lia. }
  split; [exact Hb|].
  rewrite Hb. f_equal. symmetry.
  apply (linearScanFrom_finds probe n Hc); lia.
Qed.

(** The witness is the specification's scenario: identifiers [{0,1,2,3,4}]. *)
Lemma binarySearchCount_five_proposals :
  binarySearchCount (fun i => i <? 5) = Some 5 /\
  binarySearchCount (fun i => i <? 5) = Some (linearExistenceScan (fun i => i <? 5)).
Proof.
  apply (binarySearchCount_matches_linear_scan (fun i => i <? 5) 5).
  - unfold UPPER_BOUND. lia.
  - intros i _. reflexivity.
Defined.

Example binarySearchCount_empty_ledger :
  binarySearchCount (fun _ => false) = Some 0.
Proof. vm_compute. reflexivity. Qed.

Example binarySearchCount_full_ledger :
  binarySearchCount (fun i => i <? 1000) = Some 1000.
Proof. vm_compute. reflexivity. Qed.

(** Without contiguity the search undercounts or overcounts the existing
    identifiers: with only [{0, 500}] present it answers 501. *)
Example binarySearchCount_sparse_ledger :
  binarySearchCount (fun i => (i =? 0) || (i =? 500)) = Some 501.
Proof. vm_compute. reflexivity. Qed.

End ProposalCount.

(* ===================================================================== *)
(** * Tally reconstruction *)
(* ===================================================================== *)

Section TallyReconstruction.
Import Js Web3 Effects Voting Reference Scenario.

(** Unfolding [getProposalVoteTotals] on its main path. *)
Lemma getProposalVoteTotals_counts (w : Context) (proposalId : Z) (g : Governance)
    (logs : list Log) :
  logsFetched w proposalId g logs ->
  getProposalVoteTotals w proposalId =
    Returned (tallyOf (withAccount g proposalId (account w) (countLogs logs))).
Proof.
  intros (Hg & Hp & Hst & Hid & Hlogs).
  unfold getProposalVoteTotals. rewrite Hg, Hp. simpl.
  destruct (getProposalState g proposalId) as [st|e]; [|discriminate].
  unfold hexlify.
  replace ((0 <=? proposalId) && (proposalId <? 2 ^ 53 - 1)) with true
    by (symmetry; apply andb_true_iff; split; [apply Z.leb_le|apply Z.ltb_lt]; lia).
  rewrite Hlogs. reflexivity.
Qed.

Lemma addPower_voters (support power : Z) (c : Counts) :
  c_voters (addPower support power c) = c_voters c.
Proof.
  unfold addPower. repeat (case_match; try reflexivity).
Qed.

(** One loop iteration adds the lowercased voter of an accepted log and
    nothing else to the set. *)
Lemma countLog_voters (c : Counts) (log : Log) :
  c_voters (countLog c log) =
    list_to_set (toLowerCase <$> from_option (fun v => [v]) [] (countedVoter log))
      ∪ c_voters c.
Proof.
  destruct log as [|voter support power]; simpl.
  - set_solver.
  - unfold countLog, toNumber. simpl.
    destruct (power <? 2 ^ 53); simpl.
    + rewrite addPower_voters. simpl. set_solver.
    + set_solver.
Qed.

Lemma fold_countLog_voters (logs : list Log) :
  forall c,
    c_voters (fold_left countLog logs c) =
      list_to_set (toLowerCase <$> countedVoters logs) ∪ c_voters c.
Proof.
  induction logs as [|log logs IH]; intros c; simpl.
  - set_solver.
  - rewrite IH, countLog_voters. unfold countedVoters. simpl.
    destruct (countedVoter log); simpl; set_solver.
Qed.

Lemma countLogs_voters (logs : list Log) :
  c_voters (countLogs logs) = list_to_set (toLowerCase <$> countedVoters logs).
Proof.
  unfold countLogs. rewrite fold_countLog_voters. simpl. set_solver.
Qed.


Lemma size_list_to_set_remove_dups (l : list string) :
  size (list_to_set (C := gset string) l) = length (remove_dups l).
Proof.
  rewrite <- (size_list_to_set (C := gset string) (remove_dups l))
    by apply NoDup_remove_dups.
  f_equal. apply set_eq. intros x.
  rewrite !elem_of_list_to_set, elem_of_remove_dups. reflexivity.
Qed.




(** The sums grow with every accepted event, whether or not its voter is
    already in the set. *)
Lemma countLog_accepted (c : Counts) (voter : string) (support power : Z) :
  power < 2 ^ 53 ->
  countLog c (VoteCast voter support power) =
    addPower support power (addVoter (toLowerCase voter) c).
Proof.
  intros Hfit. unfold countLog, toNumber. simpl.
  destruct (Z.ltb_spec power (2 ^ 53)); [reflexivity|lia].
Qed.

Lemma countLogs_snoc (logs : list Log) (log : Log) :
  countLogs (logs ++ [log]) = countLog (countLogs logs) log.
Proof. unfold countLogs. rewrite fold_left_app. reflexivity. Qed.

(** A second event of a voter who voted For adds its power to [yesVotes]
    again. *)
Lemma repeated_For_event_adds_weight (logs : list Log) (voter : string) (power : Z) :
  power < 2 ^ 53 ->
  c_yes (countLogs (logs ++ [VoteCast voter 1 power])) = c_yes (countLogs logs) + power /\
  c_voters (countLogs (logs ++ [VoteCast voter 1 power])) =
    {[ toLowerCase voter ]} ∪ c_voters (countLogs logs).
Proof.
  intros Hfit. rewrite countLogs_snoc, countLog_accepted by exact Hfit.
  split; reflexivity.
Qed.

(** C1.  On the specification's scenario [(A, For, 100), (B, Against, 50),
    (A, For, 100)] the reconstruction counts A once as a voter but adds A's
    weight twice: it answers yes = 200 where the specification expects 100. *)
Theorem duplicated_event_weight_counted_twice :
  exists t,
    getProposalVoteTotals duplicatedSession 7 = Returned t /\
    yesVotes t = 200 /\ noVotes t = 50 /\ abstainVotes t = 0 /\
    totalVoters t = 2%nat.
Proof.
  eexists. split.
  - apply (getProposalVoteTotals_counts duplicatedSession 7
             (ledger (Returned duplicatedLogs) (Returned 0) (Returned []) reverted)
             duplicatedLogs).
    repeat split; try reflexivity; lia.
  - vm_compute. repeat split; reflexivity.
Qed.

(** Reconstruction is a function of what the ledger answers: two runs over
    the same answers return the same tally. *)
Lemma reconstruction_repeatable (w : Context) (proposalId : Z) (t1 t2 : Tally) :
  getProposalVoteTotals w proposalId = Returned t1 ->
  getProposalVoteTotals w proposalId = Returned t2 ->
  t1 = t2.
Proof. intros H1 H2. rewrite H1 in H2. injection H2 as ->. reflexivity. Qed.

(** C3 (as the code has it).  When the state query for a proposal rejects,
    the reconstruction does not fail: it returns the zero tally of the early
    return. *)
Theorem missing_proposal_yields_zero_tally (w : Context) (proposalId : Z)
    (g : Governance) (e : error) :
  governance w = Some g ->
  getProposalState g proposalId = Thrown e ->
  getProposalVoteTotals w proposalId = Returned earlyZeroTally.
Proof.
  intros Hg Hstate. unfold getProposalVoteTotals. rewrite Hg.
  destruct (provider g); simpl; [|reflexivity].
  rewrite Hstate. reflexivity.
Qed.

Lemma unknown_proposal_99_yields_zero_tally :
  getProposalVoteTotals duplicatedSession 99 = Returned earlyZeroTally.
Proof.
  apply (missing_proposal_yields_zero_tally duplicatedSession 99
           (ledger (Returned duplicatedLogs) (Returned 0) (Returned []) reverted)
           (Upstream "call revert exception")); reflexivity.
Defined.

(** C3 (as the specification words it) fails: for the unknown proposal 99 a
    tally is returned, so no [NotFound] is raised. *)
Lemma missing_proposal_does_not_raise_NotFound :
  ~ missingProposalRaisesNotFound.
Proof.
  intros Hclaim.
  specialize (Hclaim duplicatedSession 99
                (ledger (Returned duplicatedLogs) (Returned 0) (Returned []) reverted)
                (Upstream "call revert exception") eq_refl eq_refl).
  vm_compute in Hclaim. discriminate Hclaim.
Qed.

(** The connected account is already among the voters of the logs when one
    of the accepted logs carries its address, in any letter case. *)
Lemma logged_account_in_voters (logs : list Log) (acct voter : string)
    (support power : Z) :
  VoteCast voter support power ∈ logs ->
  power < 2 ^ 53 ->
  toLowerCase voter = toLowerCase acct ->
  toLowerCase acct ∈ c_voters (countLogs logs).
Proof.
  intros Hin Hfit Hcase. rewrite countLogs_voters, elem_of_list_to_set, <- Hcase.
  apply list_elem_of_fmap_2. unfold countedVoters.
  apply list_elem_of_omap. exists (VoteCast voter support power).
  split; [exact Hin|]. simpl.
  destruct (Z.ltb_spec power (2 ^ 53)); [reflexivity|lia].
Qed.

Lemma foldAccountVote_already_counted (g : Governance) (proposalId : Z)
    (acct : string) (c : Counts) :
  toLowerCase acct ∈ c_voters c ->
  foldAccountVote g proposalId acct c = c.
Proof.
  intros Hin. unfold foldAccountVote.
  destruct (proposalVoterInfo g proposalId acct) as [voterInfo|]; [|reflexivity].
  destruct (voterInfo =? 0); [reflexivity|].
  destruct (queryVoteCast g proposalId acct) as [events|]; [|reflexivity].
  destruct (last events); [|reflexivity].
  rewrite bool_decide_eq_true_2 by exact Hin. reflexivity.
Qed.

(** C4 (as the code has it).  When an accepted log already carries the
    connected account, the direct query changes nothing: whatever it reports,
    the tally is the one counted from the logs. *)
Theorem logged_vote_not_overridden_by_direct_query (w : Context) (proposalId : Z)
    (g : Governance) (logs : list Log) (acct voter : string) (support power : Z) :
  logsFetched w proposalId g logs ->
  account w = Some acct ->
  VoteCast voter support power ∈ logs ->
  power < 2 ^ 53 ->
  toLowerCase voter = toLowerCase acct ->
  getProposalVoteTotals w proposalId = Returned (tallyOf (countLogs logs)).
Proof.
  intros Hfetched Hacct Hin Hfit Hcase.
  rewrite (getProposalVoteTotals_counts w proposalId g logs Hfetched), Hacct.
  simpl. rewrite foldAccountVote_already_counted; [reflexivity|].
  exact (logged_account_in_voters logs acct voter support power Hin Hfit Hcase).
Qed.

Lemma disagreeing_sources_keep_logged_vote :
  getProposalVoteTotals disagreeingSession 7 =
    Returned (tallyOf (countLogs [ VoteCast alice 1 100 ])).
Proof.
  apply (logged_vote_not_overridden_by_direct_query disagreeingSession 7
           (ledger (Returned [ VoteCast alice 1 100 ]) (Returned 40)
                   (Returned [ {| ev_voter := alice; ev_support := 0 |} ]) reverted)
           [ VoteCast alice 1 100 ] alice alice 1 100).
  - repeat split; try reflexivity; lia.
  - reflexivity.
  - apply list_elem_of_here.
  - lia.
  - reflexivity.
Defined.

(** The direct query is what adds a connected account the logs do not show. *)
Lemma unlogged_account_folded_in (g : Governance) (proposalId : Z) (acct : string)
    (c : Counts) (voterInfo : Z) (events : list VoteCastEvent) (latest : VoteCastEvent) :
  proposalVoterInfo g proposalId acct = Returned voterInfo ->
  voterInfo <> 0 -> voterInfo < 2 ^ 53 ->
  queryVoteCast g proposalId acct = Returned events ->
  last events = Some latest ->
  toLowerCase acct ∉ c_voters c ->
  foldAccountVote g proposalId acct c =
    addPower (ev_support latest) voterInfo (addVoter (toLowerCase acct) c).
Proof.
  intros Hinfo Hnz Hfit Hevents Hlast Hnew. unfold foldAccountVote.
  rewrite Hinfo, Hevents, Hlast.
  destruct (Z.eqb_spec voterInfo 0); [contradiction|].
  rewrite bool_decide_eq_false_2 by exact Hnew.
  unfold toNumber. destruct (Z.ltb_spec voterInfo (2 ^ 53)); [reflexivity|lia].
Qed.

(** C4 (as the specification words it) fails: the logs show Alice voting For
    with 100, the direct query shows Against with 40, and the tally keeps
    yes = 100. *)
Lemma direct_query_does_not_win :
  ~ directQueryWins.
Proof.
  intros Hclaim.
  specialize (Hclaim disagreeingSession 7
                (ledger (Returned [ VoteCast alice 1 100 ]) (Returned 40)
                        (Returned [ {| ev_voter := alice; ev_support := 0 |} ]) reverted)
                [ VoteCast alice 1 100 ] alice 0 40).
  assert (Hrun : getProposalVoteTotals disagreeingSession 7 =
                 Returned (tallyOf (countLogs [ VoteCast alice 1 100 ])))
    by (vm_compute; reflexivity).
  rewrite Hrun in Hclaim.
  assert (Heq : Returned (tallyOf (countLogs [ VoteCast alice 1 100 ])) =
                Returned (directQueryWinsTally [ VoteCast alice 1 100 ] alice 0 40)).
  { apply Hclaim.
    - repeat split; try reflexivity; lia.
    - reflexivity.
    - vm_compute. discriminate.
    - reflexivity.
    - vm_compute. discriminate. }
  apply (f_equal (fun o => match o with Returned t => yesVotes t | Thrown _ => 0 end)) in Heq.
  vm_compute in Heq. discriminate Heq.
Qed.

(** C5.  The tally returned for a proposal whose state query rejects has
    [totalVotes = 0] and carries no percentage at all: the early return omits
    the three properties that the final [catch] sets to 0. *)
Theorem early_return_tally_lacks_percentages :
  exists t,
    getProposalVoteTotals duplicatedSession 99 = Returned t /\
    totalVotes t = 0 /\
    yesPercentage t = None /\ noPercentage t = None /\ abstainPercentage t = None /\
    percentages errorZeroTally = Some (0, 0, 0)%Q.
Proof.
  exists earlyZeroTally. repeat split; reflexivity.
Qed.

Lemma percentOf_sum (y n a : Z) :
  0 < y + n + a ->
  (percentOf y (y + n + a) + percentOf n (y + n + a) + percentOf a (y + n + a)
   == 100)%Q.
Proof.
  intros Hpos. unfold percentOf.
  assert (Hne : ~ (inject_Z (y + n + a) == 0)%Q).
  { unfold Qeq. simpl. lia. }
  rewrite !inject_Z_plus in *. field. exact Hne.
Qed.

(** The tally built by the counting path, over exact rational arithmetic as
    the specification states it: its percentages add up to 100 when votes
    were counted and are all 0 when none were.  (The source rounds each
    percentage to a double, so the sum it returns is 100 up to rounding.) *)
Lemma counted_tally_percentages (c : Counts) :
  let t := tallyOf c in
  (0 < totalVotes t ->
   exists y n a, percentages t = Some (y, n, a) /\ (y + n + a == 100)%Q) /\
  (totalVotes t = 0 -> percentages t = Some (0, 0, 0)%Q).
Proof.
  simpl. split.
  - intros Hpos. unfold percentages. simpl.
    destruct (Z.ltb_spec 0 (c_yes c + c_no c + c_abstain c)); [|lia].
    do 3 eexists. split; [reflexivity|]. apply percentOf_sum. assumption.
  - intros Hzero. unfold percentages. simpl. rewrite Hzero. reflexivity.
Qed.

End TallyReconstruction.

(* ===================================================================== *)
(** * The read path degrades to defaults *)
(* ===================================================================== *)

Section ReadPath.
Import Js Web3 Effects Voting Reference Scenario.

Variable formatEther : Z -> string.

Lemma try_catch_returns {A} (body : outcome A) (handler : error -> outcome A) :
  (forall e, is_returned (handler e) = true) ->
  is_returned (try_catch body handler) = true.
Proof. intros Hh. destruct body; simpl; [reflexivity|apply Hh]. Qed.


Lemma hasVoted_returns (w : Context) (proposalId : Z) :
  is_returned (hasVoted w proposalId) = true.
Proof.
  unfold hasVoted.
  destruct (isConnected w && contractsReady w), (account w), (governance w);
    try reflexivity.
  apply try_catch_returns. reflexivity.
Qed.



Lemma getProposalSnapshotId_returns (w : Context) (proposalId : Z) :
  is_returned (getProposalSnapshotId w proposalId) = true.
Proof.
  unfold getProposalSnapshotId. destruct (governance w); [|reflexivity].
  apply try_catch_returns. intros _. apply try_catch_returns. reflexivity.
Qed.





(** A rejected event lookup does not reset [getVoteDetails] to its default:
    the vote is still reported, without its type. *)
Lemma voteDetails_keeps_vote_without_events (w : Context) (proposalId : Z)
    (g : Governance) (acct : string) (voterInfo : Z) (e : error) :
  isConnected w && contractsReady w = true ->
  governance w = Some g -> account w = Some acct ->
  proposalVoterInfo g proposalId acct = Returned voterInfo -> voterInfo <> 0 ->
  queryVoteCast g proposalId acct = Thrown e ->
  getVoteDetails formatEther w proposalId =
    Returned {| vd_hasVoted := true; vd_votingPower := formatEther voterInfo;
                vd_voteType := None |}.
Proof.
  intros Hc Hg Ha Hinfo Hnz Hev. unfold getVoteDetails. rewrite Hc, Hg, Ha.
  simpl. rewrite Hinfo. simpl.
  destruct (Z.eqb_spec voterInfo 0); [contradiction|].
  rewrite Hev. reflexivity.
Qed.


End ReadPath.

Section ReadPathScenario.
Import Js Web3 Effects Voting Reference Scenario.


End ReadPathScenario.

(* ===================================================================== *)
(** * Casting a vote *)
(* ===================================================================== *)

Section VoteCasting.
Import Js Web3 Effects Voting Reference Scenario.

Variable formatEther : Z -> string.

Lemma hasVoted_true_recorded (w : Context) (proposalId : Z) :
  hasVoted w proposalId = Returned true -> voteRecorded w proposalId.
Proof.
  unfold hasVoted, voteRecorded.
  destruct (isConnected w && contractsReady w); [|discriminate].
  destruct (account w) as [acct|]; [|discriminate].
  destruct (governance w) as [g|]; [|discriminate].
  destruct (proposalVoterInfo g proposalId acct) as [voterInfo|] eqn:Hinfo;
    simpl; [|discriminate].
  intros [= Hnz]. exists g, acct, voterInfo. repeat split; try assumption.
  intros ->. discriminate.
Qed.

Lemma hasVoted_recorded (w : Context) (proposalId : Z) :
  isConnected w && contractsReady w = true ->
  voteRecorded w proposalId -> hasVoted w proposalId = Returned true.
Proof.
  intros Hc (g & acct & voterInfo & Hg & Ha & Hinfo & Hnz).
  unfold hasVoted. rewrite Hc, Hg, Ha, Hinfo. simpl.
  destruct (Z.eqb_spec voterInfo 0); [contradiction|reflexivity].
Qed.

Lemma resolvedVotingPower_eq (w : Context) (proposalId snapshotId : Z) :
  getProposalSnapshotId w proposalId = Returned snapshotId ->
  resolvedVotingPower w proposalId =
    match token w with
    | Some t => getEffectiveVotingPower t (account w) snapshotId
    | None => Thrown TypeError
    end.
Proof. intros Hs. unfold resolvedVotingPower. rewrite Hs. reflexivity. Qed.

Ltac raised :=
  eexists; split; [reflexivity|]; split; [unfold errorJustified|reflexivity].

(** C6.  When a local validation of [castVote] fails (invalid support choice,
    proposal not active, vote already recorded, or zero resolved voting
    power), [castVote] raises, the error it raises names a condition that
    holds, and its run contains no vote transaction. *)
Theorem castVote_validation_blocks_submission (w : Context) (proposalId voteType : Z) :
  validationFails w proposalId voteType ->
  exists e,
    (castVote formatEther w proposalId voteType).1 = Thrown e /\
    errorJustified w proposalId voteType e /\
    submissions (castVote formatEther w proposalId voteType).2 = [].
Proof.
  intros Hfail. unfold castVote.
  destruct (isConnected w && contractsReady w) eqn:Hc; simpl.
  2:{ raised. auto. }
  destruct (governance w) as [g|] eqn:Hg.
  2:{ raised. auto 10. }
  unfold mtry, throwIf. simpl.
  destruct (validVoteType voteType) eqn:Hvalid; simpl.
  2:{ raised. auto 10. }
  destruct (getProposalState g proposalId) as [state|e0] eqn:Hstate; simpl.
  2:{ raised. do 6 right. left. eauto. }
  destruct (Z.eqb_spec state 0) as [->|Hactive]; simpl.
  2:{ raised. do 3 right. left. split; [reflexivity|]. exists g, state. auto. }
  pose proof (hasVoted_returns w proposalId) as Hhv.
  destruct (hasVoted w proposalId) as [[|]|] eqn:Hvoted; [| |discriminate]; simpl.
  { raised. do 4 right. left. split; [reflexivity|]. apply hasVoted_true_recorded. exact Hvoted. }
  pose proof (getProposalSnapshotId_returns w proposalId) as Hsr.
  destruct (getProposalSnapshotId w proposalId) as [snapshotId|] eqn:Hsnap;
    [|discriminate].
  pose proof (resolvedVotingPower_eq w proposalId snapshotId Hsnap) as Hpower.
  destruct (match token w with
            | Some t => getEffectiveVotingPower t (account w) snapshotId
            | None => Thrown TypeError
            end) as [votingPower|e0]; simpl.
  2:{ raised. do 7 right. exact Hpower. }
  destruct (Z.eqb_spec votingPower 0) as [->|Hnz]; simpl.
  { raised. do 5 right. left. split; [reflexivity|exact Hpower]. }
  exfalso. destruct Hfail as [Hbad|[Hinactive|[Hrecorded|Hzero]]].
  - congruence.
  - destruct Hinactive as (g' & state & Hg' & Hstate' & Hne). congruence.
  - rewrite (hasVoted_recorded w proposalId Hc Hrecorded) in Hvoted. discriminate.
  - congruence.
Qed.
End VoteCasting.

Section VoteCastingScenario.
Import Js Web3 Effects Voting Reference Scenario.

Lemma castVote_rejects_support_5 :
  exists e,
    (castVote printWei revertingSession 7 5).1 = Thrown e /\
    errorJustified revertingSession 7 5 e /\
    submissions (castVote printWei revertingSession 7 5).2 = [].
Proof.
  apply (castVote_validation_blocks_submission printWei revertingSession 7 5).
  left. reflexivity.
Defined.

Example castVote_support_5_trace :
  castVote printWei revertingSession 7 5 =
    (Thrown InvalidVoteType,
     [ SetVoting votingStarted; SetVoting (votingFailed InvalidVoteType) ]).
Proof. reflexivity. Qed.

(** With every validation passed the transaction is sent; here it reverts. *)
Example castVote_reverting_trace :
  castVote printWei revertingSession 7 1 =
    (Thrown (Upstream "transaction failed"),
     [ SetVoting votingStarted; SendVoteTx 7 1 300000;
       SetVoting (votingFailed (Upstream "transaction failed")) ]).
Proof. reflexivity. Qed.

End VoteCastingScenario.

(* ===================================================================== *)
(** * The optimistic vote record of [VoteTab] *)
(* ===================================================================== *)

Section OptimisticVote.
Import Js Web3 Effects Voting VoteTab Reference Scenario.

Lemma votedProposalsAfter_app (before : gmap Z Z) (t1 t2 : list Effect) :
  votedProposalsAfter before (t1 ++ t2) =
    votedProposalsAfter (votedProposalsAfter before t1) t2.
Proof. apply fold_left_app. Qed.

(** The last setter of a trace decides the state. *)
Lemma votedProposalsAfter_last_setter (before m : gmap Z Z) (t : list Effect) :
  votedProposalsAfter before (t ++ [SetVotedProposals m]) = m.
Proof. rewrite votedProposalsAfter_app. reflexivity. Qed.

Lemma submitVote_trace {R} (castVote : Z -> Z -> M R) (votedProposals : gmap Z Z)
    (proposalId support : Z) :
  (submitVote castVote votedProposals proposalId support).2 =
    SetVotedProposals (<[proposalId := support]> votedProposals)
      :: (castVote proposalId support).2
      ++ match (castVote proposalId support).1 with
         | Returned _ => []
         | Thrown e =>
             [ Alert e; SetVotedProposals (delete proposalId votedProposals) ]
         end.
Proof.
  unfold submitVote, mtry. simpl.
  destruct (castVote proposalId support) as [[r|e] t]; simpl.
  - rewrite !app_nil_r. reflexivity.
  - reflexivity.
Qed.

(** C7.  [submitVote] records the speculative vote as its very first effect,
    so every vote transaction of the run comes later in the trace; the
    proposal then shows as voted locally.  When [castVote] fails, the last
    setter removes the proposal's record, whatever state the component held:
    the proposal is locally unvoted again.  [submitVote] itself never
    raises. *)
Theorem submitVote_records_then_rolls_back {R} (castVote : Z -> Z -> M R)
    (votedProposals before : gmap Z Z) (proposalId support : Z) :
  let run := submitVote castVote votedProposals proposalId support in
  (run.2 !! 0%nat =
     Some (SetVotedProposals (<[proposalId := support]> votedProposals)) /\
   forall i tx, run.2 !! i = Some tx -> is_send tx = true -> (0 < i)%nat) /\
  locallyVoted (<[proposalId := support]> votedProposals) proposalId = true /\
  (forall e, (castVote proposalId support).1 = Thrown e ->
     votedProposalsAfter before run.2 !! proposalId = None /\
     locallyVoted (votedProposalsAfter before run.2) proposalId = false) /\
  run.1 = Returned tt.
Proof.
  simpl. split; [|split; [|split]].
  - rewrite submitVote_trace. split; [reflexivity|].
    intros [|i] tx Hi Hsend; [|lia].
    injection Hi as <-. discriminate Hsend.
  - unfold locallyVoted. apply bool_decide_eq_true_2.
    rewrite lookup_insert_eq. eauto.
  - intros e He. rewrite submitVote_trace, He.
    assert (Hfinal :
      votedProposalsAfter before
        (SetVotedProposals (<[proposalId := support]> votedProposals)
           :: (castVote proposalId support).2
           ++ [ Alert e; SetVotedProposals (delete proposalId votedProposals) ])
      = delete proposalId votedProposals).
    { replace (SetVotedProposals (<[proposalId := support]> votedProposals)
                 :: (castVote proposalId support).2
                 ++ [ Alert e; SetVotedProposals (delete proposalId votedProposals) ])
        with ((SetVotedProposals (<[proposalId := support]> votedProposals)
                 :: (castVote proposalId support).2 ++ [ Alert e ])
              ++ [ SetVotedProposals (delete proposalId votedProposals) ])
        by (simpl; rewrite <- app_assoc; reflexivity).
      apply votedProposalsAfter_last_setter. }
    rewrite Hfinal. split.
    + apply lookup_delete_eq.
    + unfold locallyVoted. apply bool_decide_eq_false_2.
      rewrite lookup_delete_eq. intros [x Hx]. discriminate.
  - unfold submitVote, mtry. simpl.
    destruct (castVote proposalId support) as [[r|e] t]; reflexivity.
Qed.

(** The whole run against a ledger on which the transaction reverts: record,
    send, fail, alert, roll back. *)
Example submitVote_reverting_run :
  (submitVote (castVote printWei revertingSession) ∅ 7 1).2 =
    [ SetVotedProposals {[ 7 := 1 ]};
      SetVoting votingStarted;
      SendVoteTx 7 1 300000;
      SetVoting (votingFailed (Upstream "transaction failed"));
      Alert (Upstream "transaction failed");
      SetVotedProposals ∅ ] /\
  votedProposalsAfter {[ 7 := 1 ]}
    (submitVote (castVote printWei revertingSession) ∅ 7 1).2 !! 7 = None.
Proof. split; reflexivity. Qed.

(** The rollback starts from the captured value, so it also drops a record
    the proposal had before the submission. *)
Example submitVote_rollback_drops_earlier_record :
  votedProposalsAfter {[ 7 := 2 ]}
    (submitVote (castVote printWei revertingSession) {[ 7 := 2 ]} 7 1).2 = ∅.
Proof. reflexivity. Qed.

End OptimisticVote.

(* ===================================================================== *)
(** * Percentages shown by [VoteTab] *)
(* ===================================================================== *)

Section Percentages.
Import Js VoteTab Reference.

Lemma orZero_finite (x : float) :
  finiteCount x -> exists q, orZero x = FNum q /\ (0 <= q)%Q.
Proof.
  destruct x as [|negative|q]; simpl; intros Hfinite.
  - exists 0%Q. split; [reflexivity|discriminate].
  - contradiction.
  - exists q. split; [reflexivity|exact Hfinite].
Qed.

(** The percentage of a finite part in a finite positive total. *)
Lemma percentage_finite (part total : Q) :
  (0 < total)%Q ->
  percentage (FNum part) (FNum total) = FNum (part / total * 100).
Proof.
  intros Hpos. unfold percentage. simpl.
  destruct (Qlt_le_dec 0 total) as [_|Hle]; [|exact (False_ind _ (Qlt_not_le _ _ Hpos Hle))].
  destruct (Qeq_bool total 0) eqn:Hzero; [|reflexivity].
  apply Qeq_bool_eq in Hzero. rewrite Hzero in Hpos.
  exact (False_ind _ (Qlt_irrefl 0 Hpos)).
Qed.

Lemma percentage_of_nothing (part total : Q) :
  (total <= 0)%Q -> percentage (FNum part) (FNum total) = FNum 0.
Proof.
  intros Hle. unfold percentage. simpl.
  destruct (Qlt_le_dec 0 total) as [Hpos|_]; [|reflexivity].
  exact (False_ind _ (Qlt_not_le _ _ Hpos Hle)).
Qed.

(** [calculateVotePercentages] on finite counts, over exact rational
    arithmetic as the specification states it: the three percentages add up
    to 100 when the total is positive, and are 0 otherwise (in particular for
    a proposal whose counts are missing or unreadable).  (The source rounds
    each percentage to a double, so the sum it shows is 100 up to
    rounding.) *)
Lemma calculateVotePercentages_sum (proposal : Proposal) (y n a : Q) :
  orZero (p_yesVotes proposal) = FNum y ->
  orZero (p_noVotes proposal) = FNum n ->
  orZero (p_abstainVotes proposal) = FNum a ->
  let d := calculateVotePercentages proposal in
  ((0 < y + n + a)%Q ->
   exists py pn pa,
     vd_yesPercentage d = FNum py /\ vd_noPercentage d = FNum pn /\
     vd_abstainPercentage d = FNum pa /\ (py + pn + pa == 100)%Q) /\
  ((y + n + a <= 0)%Q ->
   vd_yesPercentage d = FNum 0 /\ vd_noPercentage d = FNum 0 /\
   vd_abstainPercentage d = FNum 0).
Proof.
  intros Hy Hn Ha. unfold calculateVotePercentages.
  cbn [vd_yesPercentage vd_noPercentage vd_abstainPercentage].
  rewrite Hy, Hn, Ha. cbn [fadd]. split.
  - intros Hpos. rewrite !percentage_finite by exact Hpos.
    do 3 eexists. repeat (split; [reflexivity|]).
    field. intros Hz. rewrite Hz in Hpos. exact (Qlt_irrefl 0 Hpos).
  - intros Hle. rewrite !percentage_of_nothing by exact Hle.
    repeat split.
Qed.

Example calculateVotePercentages_unreadable :
  calculateVotePercentages
    {| p_yesVotes := FNaN; p_noVotes := FNaN; p_abstainVotes := FNaN |} =
  {| vd_yesVotes := FNum 0; vd_noVotes := FNum 0; vd_abstainVotes := FNum 0;
     vd_totalVotes := FNum 0;
     vd_yesPercentage := FNum 0; vd_noPercentage := FNum 0;
     vd_abstainPercentage := FNum 0 |}.
Proof. reflexivity. Qed.

(** A count that reads as [Infinity] is kept by [|| 0]: the total is
    infinite, the guard [totalVotes > 0] passes, and the percentage of the
    infinite count is [NaN]. *)
Example calculateVotePercentages_infinite_count :
  let d := calculateVotePercentages
             {| p_yesVotes := FInf false; p_noVotes := FNum 1; p_abstainVotes := FNaN |} in
  vd_totalVotes d = FInf false /\
  vd_yesPercentage d = FNaN /\
  vd_noPercentage d = FNum 0 /\
  vd_abstainPercentage d = FNum 0.
Proof. repeat split; reflexivity. Qed.

End Percentages.

(* ===================================================================== *)
(** * Governance metrics stay in the plausible range *)
(* ===================================================================== *)

Section GovernanceMetrics.
Import Js Web3 DAOStats Reference.

(** The check fires exactly on implausible values. *)
Lemma sanitize_implausible (fallback : Q) (x : number) :
  implausible x -> sanitize fallback x = Num fallback.
Proof.
  unfold sanitize, plausible. destruct x as [|q]; simpl; [reflexivity|].
  intros [Hlow|Hhigh].
  - apply Qle_bool_iff in Hlow. rewrite Hlow. reflexivity.
  - destruct (Qle_bool q (1 # 100)); [reflexivity|].
    assert (Hn : Qle_bool q 1 = false).
    { apply not_true_iff_false. rewrite Qle_bool_iff. apply Qlt_not_le. exact Hhigh. }
    rewrite Hn. reflexivity.
Qed.

Lemma sanitize_plausible (fallback : Q) (x : number) :
  ~ implausible x -> sanitize fallback x = x.
Proof.
  unfold sanitize, plausible. destruct x as [|q]; simpl; [tauto|].
  intros Hok.
  destruct (Qle_bool q (1 # 100)) eqn:Hlow.
  { exfalso. apply Hok. left. apply Qle_bool_iff. exact Hlow. }
  destruct (Qle_bool q 1) eqn:Hhigh; [reflexivity|].
  exfalso. apply Hok. right. apply Qnot_le_lt. rewrite <- Qle_bool_iff.
  rewrite Hhigh. discriminate.
Qed.

Lemma implausible_dec (x : number) : implausible x \/ ~ implausible x.
Proof.
  destruct x as [|q]; simpl; [left; exact I|].
  destruct (Qlt_le_dec (1 # 100) q) as [Hlow|Hlow];
    destruct (Qlt_le_dec 1 q) as [Hhigh|Hhigh]; try tauto.
  right. intros [H|H].
  - exact (Qlt_not_le _ _ Hlow H).
  - exact (Qlt_not_le _ _ H Hhigh).
Qed.

Lemma sanitize_in_range (fallback : Q) (x : number) :
  (1 # 100 < fallback)%Q -> (fallback <= 1)%Q ->
  inPlausibleRange (sanitize fallback x).
Proof.
  intros Hlo Hhi. destruct (implausible_dec x) as [Hbad|Hok].
  - rewrite sanitize_implausible by exact Hbad. exists fallback. auto.
  - rewrite sanitize_plausible by exact Hok.
    destruct x as [|q]; simpl in Hok; [tauto|].
    exists q. split; [reflexivity|]. split.
    + apply Qnot_le_lt. tauto.
    + apply Qnot_lt_le. tauto.
Qed.

(** C9.  Whatever the analytics helper and the token contract answer, the
    three returned rates are numbers above 0.01 and at most 1.  A strategy
    result that is [NaN], at most 0.01 or above 1 is replaced by the seeded
    default (0.27, 0.38, 0.73); any other result is returned as it is. *)
Theorem fetchGovernanceMetrics_plausible (w : Context) :
  let r := fetchGovernanceMetrics w in
  let s := strategyRates w in
  (inPlausibleRange (participationRate r) /\
   inPlausibleRange (delegationRate r) /\
   inPlausibleRange (proposalSuccessRate r)) /\
  ((implausible (participationRate s) -> participationRate r = Num (27 # 100)) /\
   (implausible (delegationRate s) -> delegationRate r = Num (38 # 100)) /\
   (implausible (proposalSuccessRate s) -> proposalSuccessRate r = Num (73 # 100))) /\
  ((~ implausible (participationRate s) -> participationRate r = participationRate s) /\
   (~ implausible (delegationRate s) -> delegationRate r = delegationRate s) /\
   (~ implausible (proposalSuccessRate s) ->
    proposalSuccessRate r = proposalSuccessRate s)).
Proof.
  simpl. split; [|split].
  - repeat split; apply sanitize_in_range; reflexivity || discriminate.
  - repeat split; apply sanitize_implausible.
  - repeat split; apply sanitize_plausible.
Qed.

Example fetchGovernanceMetrics_analytics :
  strategyRates Scenario.analyticsSession =
    {| participationRate := Num (50 # 10000);
       delegationRate := Num (4200 # 10000);
       proposalSuccessRate := Num (80 # 100) |} /\
  fetchGovernanceMetrics Scenario.analyticsSession =
    {| participationRate := Num (27 # 100);
       delegationRate := Num (4200 # 10000);
       proposalSuccessRate := Num (80 # 100) |}.
Proof. split; reflexivity. Qed.

Example fetchGovernanceMetrics_garbled :
  participationRate (strategyRates Scenario.garbledSession) = NaN /\
  fetchGovernanceMetrics Scenario.garbledSession =
    {| participationRate := Num (27 # 100);
       delegationRate := Num (38 # 100);
       proposalSuccessRate := Num (73 # 100) |}.
Proof. split; reflexivity. Qed.

End GovernanceMetrics.

(* ===================================================================== *)
(** * Proposal statistics for arbitrary contracts *)
(* ===================================================================== *)

Section ProposalStatistics.
Import Js Web3 DAOStats.

Lemma midpoint_halves (low high : Z) :
  low <= high ->
  2 * (high - ((low + high) / 2 + 1) + 1) <= high - low + 1 /\
  2 * ((low + high) / 2 - 1 - low + 1) <= high - low + 1.
Proof.
  intros Hle.
  pose proof (Z.div_mod (low + high) 2 ltac:(lia)) as Hdm.
  pose proof (Z.mod_pos_bound (low + high) 2 ltac:(lia)) as Hm.
  lia.
Qed.

(** [searchTrace] computes what [searchLoop] computes. *)
Lemma searchTrace_result (probe : Z -> bool) (fuel : nat) :
  forall low high, fst <$> searchTrace fuel probe low high = searchLoop fuel probe low high.
Proof.
  induction fuel as [|fuel IH]; intros low high; [reflexivity|].
  simpl. destruct (low <=? high); [|reflexivity].
  destruct (probe _); rewrite <- IH;
    destruct (searchTrace fuel probe _ _) as [[h probes]|]; reflexivity.
Qed.

(** Invariant of the loop for an arbitrary oracle: the identifier below [low]
    exists (or [low] is 0), the one above [high] does not (or [high] is the
    upper bound), and every probe lies between them. *)
Lemma searchTrace_invariant (probe : Z -> bool) (fuel : nat) :
  forall low high,
    0 <= low -> low <= high + 1 -> high <= 1000 ->
    (low = 0 \/ probe (low - 1) = true) ->
    (high = 1000 \/ probe (high + 1) = false) ->
    (Z.to_nat (high - low + 1) < fuel)%nat ->
    exists h probes,
      searchTrace fuel probe low high = Some (h, probes) /\
      0 <= h + 1 <= 1001 /\
      (h + 1 = 0 \/ probe h = true) /\
      (h = 1000 \/ probe (h + 1) = false) /\
      Forall (fun m => low <= m <= high) probes.
Proof.
  induction fuel as [|fuel IH]; intros low high H0 Hlh Hhi Hbelow Habove Hfuel; [lia|].
  simpl. destruct (Z.leb_spec low high) as [Hle|Hgt].
  - pose proof (midpoint_bounds low high Hle) as [Hlo Hup].
    destruct (probe ((low + high) / 2)) eqn:Hp.
    + destruct (IH ((low + high) / 2 + 1) high) as (h & ps & -> & Hr & Hb & Ha & Hall);
        try lia.
      { right. replace ((low + high) / 2 + 1 - 1) with ((low + high) / 2) by lia.
        exact Hp. }
      { exact Habove. }
      exists h, ((low + high) / 2 :: ps). simpl. repeat split; try tauto; try lia.
      constructor; [lia|]. eapply Forall_impl; [exact Hall|]. simpl. intros; lia.
    + destruct (IH low ((low + high) / 2 - 1)) as (h & ps & -> & Hr & Hb & Ha & Hall);
        try lia.
      { exact Hbelow. }
      { right. replace ((low + high) / 2 - 1 + 1) with ((low + high) / 2) by lia.
        exact Hp. }
      exists h, ((low + high) / 2 :: ps). simpl. repeat split; try tauto; try lia.
      constructor; [lia|]. eapply Forall_impl; [exact Hall|]. simpl. intros; lia.
  - exists high, []. repeat split; try lia.
    + destruct Hbelow as [->|Hb]; [left; lia|].
      right. replace high with (low - 1) by lia. exact Hb.
    + exact Habove.
    + constructor.
Qed.

(** The interval at least halves with every probe. *)
Lemma searchTrace_probe_count (probe : Z -> bool) (fuel : nat) :
  forall (k : nat) low high h probes,
    high - low + 1 < 2 ^ Z.of_nat k ->
    searchTrace fuel probe low high = Some (h, probes) ->
    (length probes <= k)%nat.
Proof.
  induction fuel as [|fuel IH]; intros k low high h probes Hsize Hrun; [discriminate|].
  simpl in Hrun. destruct (Z.leb_spec low high) as [Hle|Hgt].
  - destruct k as [|k].
    { simpl in Hsize. lia. }
    pose proof (midpoint_halves low high Hle) as [Hup Hdown].
    rewrite Nat2Z.inj_succ, Z.pow_succ_r in Hsize by lia.
    destruct (probe ((low + high) / 2)).
    + destruct (searchTrace fuel probe ((low + high) / 2 + 1) high)
        as [[h' ps]|] eqn:Hrec; [|discriminate].
      injection Hrun as <- <-. simpl. apply le_n_S.
      apply (IH k ((low + high) / 2 + 1) high h' ps); [lia|exact Hrec].
    + destruct (searchTrace fuel probe low ((low + high) / 2 - 1))
        as [[h' ps]|] eqn:Hrec; [|discriminate].
      injection Hrun as <- <-. simpl. apply le_n_S.
      apply (IH k low ((low + high) / 2 - 1) h' ps); [lia|exact Hrec].
  - injection Hrun as <- <-. simpl. lia.
Qed.

Lemma binarySearchCount_trace (probe : Z -> bool) :
  exists h probes,
    searchTrace 1002 probe 0 1000 = Some (h, probes) /\
    binarySearchCount probe = Some (h + 1) /\
    0 <= h + 1 <= 1001 /\
    (h + 1 = 0 \/ probe h = true) /\
    (h = 1000 \/ probe (h + 1) = false) /\
    Forall (fun m => 0 <= m <= 1000) probes.
Proof.
  destruct (searchTrace_invariant probe 1002 0 1000) as (h & ps & Hrun & Hrest);
    try lia; try (left; reflexivity).
  exists h, ps. split; [exact Hrun|]. split; [|exact Hrest].
  unfold binarySearchCount, UPPER_BOUND.
  rewrite <- searchTrace_result, Hrun. reflexivity.
Qed.

(** X4.  Whatever the contract answers, contiguous identifiers or not, the
    binary search of [fetchProposalStats] returns a count [n] between 0 and
    1001 that sits on a boundary: identifier [n - 1] exists (unless [n] is 0)
    and identifier [n] does not (unless [n] is 1001). *)
Theorem binarySearchCount_boundary (probe : Z -> bool) :
  exists n,
    binarySearchCount probe = Some n /\
    0 <= n <= 1001 /\
    (n = 0 \/ probe (n - 1) = true) /\
    (n = 1001 \/ probe n = false).
Proof.
  destruct (binarySearchCount_trace probe) as (h & ps & _ & Hcount & Hr & Hb & Ha & _).
  exists (h + 1). split; [exact Hcount|]. split; [exact Hr|]. split.
  - destruct Hb as [Hb|Hb]; [left; exact Hb|right].
    replace (h + 1 - 1) with h by lia. exact Hb.
  - destruct Ha as [->|Ha]; [left; reflexivity|right; exact Ha].
Qed.

(** X5.  The binary search calls [getProposalState] at most 10 times, and
    only with identifiers between 0 and 1000. *)
Theorem binarySearch_probes_bounded (probe : Z -> bool) :
  (length (probedIds probe) <= 10)%nat /\
  Forall (fun m => 0 <= m <= 1000) (probedIds probe).
Proof.
  destruct (binarySearchCount_trace probe) as (h & ps & Hrun & _ & _ & _ & _ & Hall).
  unfold probedIds, UPPER_BOUND. rewrite Hrun. simpl. split; [|exact Hall].
  apply (searchTrace_probe_count probe 1002 10 0 1000 h ps); [|exact Hrun].
  simpl. lia.
Qed.

Example probedIds_five_proposals :
  probedIds (fun i => i <? 5) = [500; 249; 124; 61; 30; 14; 6; 2; 4; 5].
Proof. vm_compute. reflexivity. Qed.

Lemma activeProposals_bounds (g : Governance) (total : Z) :
  0 <= activeProposals g total <= Z.max 0 total.
Proof.
  unfold activeProposals. split; [lia|].
  pose proof (length_filter (fun i => isActive g (Z.of_nat i) = true)
                (seq 0 (Z.to_nat total))) as Hlen.
  rewrite length_seq in Hlen. lia.
Qed.

(** X6.  [fetchProposalStats] always produces its two counts; the number of
    active proposals is never negative and never exceeds the total, and a
    total found by the binary search is at most 1001. *)
Theorem fetchProposalStats_counts (g : Governance) :
  exists stats,
    fetchProposalStats g = Some stats /\
    0 <= stat_active stats <= Z.max 0 (stat_total stats) /\
    (getProposalCount g = None -> 0 <= stat_total stats <= 1001).
Proof.
  unfold fetchProposalStats, totalProposals.
  destruct (binarySearchCount_trace (exists_on g)) as (h & ps & _ & Hcount & Hr & _).
  destruct (directCount g =? 0) eqn:Hdirect.
  - rewrite Hcount. simpl. eexists. split; [reflexivity|]. simpl.
    split; [apply activeProposals_bounds|]. intros _. exact Hr.
  - simpl. eexists. split; [reflexivity|]. simpl.
    split; [apply activeProposals_bounds|].
    intros Hnone. unfold directCount in Hdirect. rewrite Hnone in Hdirect.
    discriminate.
Qed.

End ProposalStatistics.

(* ===================================================================== *)
(** * Where the governance metrics come from *)
(* ===================================================================== *)

Section MetricSources.
Import Js Web3 DAOStats Reference.

Lemma toNumber_small (z : Z) : z <= 10000 -> toNumber z = Returned z.
Proof.
  intros Hz. unfold toNumber.
  assert (Hbig : 10000 < 2 ^ 53) by reflexivity.
  destruct (Z.ltb_spec z (2 ^ 53)); [reflexivity|lia].
Qed.

Lemma basis_points_plausible (z : Z) (unit : positive) :
  Z.pos unit < 100 * z -> z <= Z.pos unit ->
  ~ implausible (Num (inject_Z z / inject_Z (Z.pos unit))).
Proof.
  intros Hlow Hhigh. simpl. unfold Qle, Qlt. simpl. lia.
Qed.

(** X7.  Without an analytics helper, or when its proposal-analytics call is
    rejected, [fetchGovernanceMetrics] returns the three seeded defaults; the
    snapshot metrics of the token are not consulted, because the delegation
    rate is still the non-zero default. *)
Theorem metrics_default_without_analytics (w : Context) :
  analyticsHelper w = None \/
  (exists h e, analyticsHelper w = Some h /\ getProposalAnalytics h = Thrown e) ->
  fetchGovernanceMetrics w =
    {| participationRate := Num (27 # 100);
       delegationRate := Num (38 # 100);
       proposalSuccessRate := Num (73 # 100) |}.
Proof.
  intros Hsource.
  assert (Hstay : fromAnalyticsHelper w initialRates = initialRates).
  { unfold fromAnalyticsHelper.
    destruct Hsource as [->|(h & e & -> & ->)]; reflexivity. }
  unfold fetchGovernanceMetrics, strategyRates. rewrite Hstay. reflexivity.
Qed.

Lemma metrics_default_with_snapshot_only :
  fetchGovernanceMetrics Scenario.helperlessSession =
    {| participationRate := Num (27 # 100);
       delegationRate := Num (38 # 100);
       proposalSuccessRate := Num (73 # 100) |}.
Proof.
  apply (metrics_default_without_analytics Scenario.helperlessSession).
  left. reflexivity.
Defined.

(** X8.  The helper's turnout and delegated share are read as basis points
    and its success rate as a percentage: values above 1 percent and at most
    100 percent are returned as the matching fractions. *)
Theorem metrics_from_analytics (w : Context) (h : AnalyticsHelper)
    (turnout successRate delegated : Z) :
  analyticsHelper w = Some h ->
  getProposalAnalytics h =
    Returned (Some {| avgVotingTurnout := BigNumberField turnout;
                      generalSuccessRate := BigNumberField successRate |}) ->
  getTokenDistributionAnalytics h =
    Returned (Some {| percentageDelegated := BigNumberField delegated |}) ->
  100 < turnout <= 10000 ->
  1 < successRate <= 100 ->
  100 < delegated <= 10000 ->
  fetchGovernanceMetrics w =
    {| participationRate := Num (inject_Z turnout / 10000);
       delegationRate := Num (inject_Z delegated / 10000);
       proposalSuccessRate := Num (inject_Z successRate / 100) |}.
Proof.
  intros Hh Hpa Hta Ht Hs Hd.
  assert (Hrates : strategyRates w =
    {| participationRate := Num (inject_Z turnout / 10000);
       delegationRate := Num (inject_Z delegated / 10000);
       proposalSuccessRate := Num (inject_Z successRate / 100) |}).
  { unfold strategyRates, fromAnalyticsHelper. rewrite Hh, Hpa. simpl.
    rewrite (toNumber_small turnout) by lia. simpl.
    rewrite (toNumber_small successRate) by lia. simpl.
    unfold delegationFrom. rewrite Hta. simpl.
    rewrite (toNumber_small delegated) by lia. simpl.
    unfold fromSnapshot. simpl.
    replace (Qeq_bool (inject_Z delegated / 10000) 0) with false; [reflexivity|].
    symmetry. apply not_true_iff_false. rewrite Qeq_bool_iff.
    unfold Qeq. simpl. lia. }
  unfold fetchGovernanceMetrics. rewrite Hrates. simpl. f_equal.
  - apply sanitize_plausible, (basis_points_plausible turnout 10000); lia.
  - apply sanitize_plausible, (basis_points_plausible delegated 10000); lia.
  - apply sanitize_plausible, (basis_points_plausible successRate 100); lia.
Qed.

Lemma metrics_from_healthy_analytics :
  fetchGovernanceMetrics Scenario.healthySession =
    {| participationRate := Num (inject_Z 2500 / 10000);
       delegationRate := Num (inject_Z 4100 / 10000);
       proposalSuccessRate := Num (inject_Z 64 / 100) |}.
Proof.
  eapply (metrics_from_analytics Scenario.healthySession _ 2500 64 4100);
    try reflexivity; lia.
Defined.

End MetricSources.

(* ===================================================================== *)
(** * Counting token holders *)
(* ===================================================================== *)

Section HolderCount.
Import Js Holders.

Lemma lower_ascii_idempotent (c : ascii) :
  lower_ascii (lower_ascii c) = lower_ascii c.
Proof. destruct c as [[] [] [] [] [] [] [] []]; reflexivity. Qed.

Lemma toLowerCase_idempotent (s : string) :
  toLowerCase (toLowerCase s) = toLowerCase s.
Proof.
  induction s as [|c s IH]; simpl; [reflexivity|].
  rewrite lower_ascii_idempotent, IH. reflexivity.
Qed.

(** What the set holds at any point: lowercased addresses, each once. *)
Definition lowercaseSet (s : list string) : Prop :=
  NoDup s /\ Forall (fun a => toLowerCase a = a) s.

Lemma setAdd_lowercaseSet (a : string) (s : list string) :
  lowercaseSet s -> lowercaseSet (setAdd (toLowerCase a) s).
Proof.
  intros [Hnd Hlow]. unfold setAdd. case_bool_decide as Hin; [split; assumption|].
  split.
  - apply NoDup_app. split; [exact Hnd|]. split.
    + intros x Hx Hx'. apply list_elem_of_singleton in Hx'. subst x. contradiction.
    + apply NoDup_singleton.
  - apply Forall_app. split; [exact Hlow|].
    constructor; [apply toLowerCase_idempotent|constructor].
Qed.

Lemma setAddOpt_lowercaseSet (a : option string) (s : list string) :
  lowercaseSet s -> lowercaseSet (setAddOpt a s).
Proof. destruct a; simpl; [apply setAdd_lowercaseSet|trivial]. Qed.

Lemma addTransfer_lowercaseSet (s : list string) (event : TransferEvent) :
  lowercaseSet s -> lowercaseSet (addTransfer s event).
Proof.
  intros Hs. unfold addTransfer. destruct (tr_args event) as [[from to]|]; [|exact Hs].
  destruct (String.eqb from AddressZero), (String.eqb to AddressZero);
    auto using setAdd_lowercaseSet.
Qed.

Lemma fold_addTransfer_lowercaseSet (events : list TransferEvent) :
  forall s, lowercaseSet s -> lowercaseSet (fold_left addTransfer events s).
Proof.
  induction events as [|event events IH]; intros s Hs; simpl; [exact Hs|].
  apply IH, addTransfer_lowercaseSet, Hs.
Qed.

(** X9.  The addresses whose balance is checked are lowercased and pairwise
    distinct, however often and in whatever letter case an address occurs in
    the transfers or among the known addresses. *)
Theorem candidateAddresses_distinct_lowercase (c : Contracts)
    (events : list TransferEvent) :
  NoDup (candidateAddresses c events) /\
  Forall (fun a => toLowerCase a = a) (candidateAddresses c events).
Proof.
  unfold candidateAddresses.
  do 3 apply setAddOpt_lowercaseSet.
  apply fold_addTransfer_lowercaseSet. split; constructor.
Qed.

Lemma batchLoop_counts (t : TokenContract) (addresses : list string) (fuel : nat) :
  forall i holdersCount,
    (length addresses - i <= fuel)%nat ->
    batchLoop fuel t addresses i holdersCount =
      (holdersCount + length (List.filter (holdsTokens t) (drop i addresses)))%nat.
Proof.
  induction fuel as [|fuel IH]; intros i holdersCount Hfuel; simpl.
  - rewrite drop_ge by lia. simpl. lia.
  - destruct (Nat.ltb_spec i (length addresses)) as [Hlt|Hge].
    + rewrite IH by (unfold batchSize; lia).
      rewrite <- (take_drop batchSize (drop i addresses)) at 2.
      rewrite List.filter_app, length_app, drop_drop.
      replace (i + batchSize)%nat with (i + batchSize)%nat by reflexivity. lia.
    + rewrite drop_ge by lia. simpl. lia.
Qed.

(** X10.  Checking the balances in batches of ten counts exactly the
    candidate addresses with a non-zero balance; an address whose balance
    query is rejected counts as holding nothing. *)
Theorem countHolders_counts_all (t : TokenContract) (addresses : list string) :
  countHolders t addresses = length (List.filter (holdsTokens t) addresses).
Proof.
  unfold countHolders. rewrite batchLoop_counts by lia. reflexivity.
Qed.

Lemma positiveOr4_positive (count : option Z) : 1 <= positiveOr4 count.
Proof.
  unfold positiveOr4, FALLBACK_HOLDERS. destruct count as [n|]; [|lia].
  destruct (Z.ltb_spec 0 n); lia.
Qed.

Lemma fetchTokenHoldersDirect_positive (c : Contracts) :
  1 <= fetchTokenHoldersDirect c.
Proof.
  unfold fetchTokenHoldersDirect, FALLBACK_HOLDERS.
  destruct (token c) as [t|]; [|simpl; lia].
  cbn -[countHolders checkAddresses List.filter Z.of_nat].
  destruct (getBlockNumber t) as [blockNumber|]; [|simpl; lia].
  cbn -[countHolders checkAddresses List.filter Z.of_nat].
  destruct (queryTransfer t _) as [events|]; [|simpl; lia].
  cbn -[countHolders checkAddresses List.filter Z.of_nat Nat.ltb].
  generalize (countHolders t (candidateAddresses c events)).
  generalize (length (List.filter (holdsTokens t) (checkAddresses t))).
  intros direct counted.
  destruct counted as [|counted]; [destruct direct as [|direct]|];
    cbn -[Z.of_nat]; lia.
Qed.

(** X11.  When the transfers can be fetched and at least one candidate
    address holds tokens, [fetchTokenHoldersDirect] returns the number of
    candidates with a non-zero balance, scanning from block
    [max(0, blockNumber - 100000)]. *)
Theorem fetchTokenHoldersDirect_counts (c : Contracts) (t : TokenContract)
    (blockNumber : Z) (events : list TransferEvent) :
  token c = Some t ->
  getBlockNumber t = Returned blockNumber ->
  queryTransfer t (Z.max 0 (blockNumber - 100000)) = Returned events ->
  List.filter (holdsTokens t) (candidateAddresses c events) <> [] ->
  fetchTokenHoldersDirect c =
    Z.of_nat (length (List.filter (holdsTokens t) (candidateAddresses c events))).
Proof.
  intros Ht Hb Hq Hsome. unfold fetchTokenHoldersDirect.
  rewrite Ht. cbn -[countHolders checkAddresses List.filter Z.of_nat Z.max].
  rewrite Hb. cbn -[countHolders checkAddresses List.filter Z.of_nat Z.max].
  rewrite Hq. cbn -[countHolders checkAddresses List.filter Z.of_nat Z.max].
  unfold countHolders.
  rewrite (batchLoop_counts t (candidateAddresses c events) _ 0 0) by lia.
  rewrite drop_0.
  destruct (List.filter (holdsTokens t) (candidateAddresses c events)) as [|a l];
    [contradiction|reflexivity].
Qed.

(** X12.  [fetchTokenHoldersFromEtherscan] never reports fewer than one
    holder, whatever the explorer and the token contract answer, and so does
    the direct count it falls back to. *)
Theorem holder_count_positive (x : Explorer) (c : Contracts) :
  1 <= fetchTokenHoldersFromEtherscan x c /\ 1 <= fetchTokenHoldersDirect c.
Proof.
  split; [|apply fetchTokenHoldersDirect_positive].
  pose proof (fetchTokenHoldersDirect_positive c) as Hdirect.
  unfold fetchTokenHoldersFromEtherscan.
  destruct (token c ≫= address) as [tokenAddress|]; [|unfold FALLBACK_HOLDERS; lia].
  assert (Hinfo : forall n,
    holdersFromTokenInfo x c tokenAddress = Returned n -> 1 <= n).
  { unfold holdersFromTokenInfo. intros n.
    destruct (fetchJson x (apiUrl (networkId x) "tokeninfo" tokenAddress))
      as [statsData|]; simpl; [|discriminate].
    destruct (String.eqb (status statsData) "1"); [|intros [= <-]; exact Hdirect].
    destruct (result statsData) as [|items|]; try (intros [= <-]; exact Hdirect).
    destruct (List.find _ items) as [tokenInfo|]; intros [= <-];
      [apply positiveOr4_positive|exact Hdirect]. }
  destruct (fetchJson x (apiUrl (networkId x) "tokenholderlist" tokenAddress))
    as [data|]; simpl; [|exact Hdirect].
  destruct (String.eqb (status data) "1").
  - destruct (result data) as [|items|]; simpl.
    + destruct (holdersFromTokenInfo x c tokenAddress) as [n|] eqn:Hn;
        [exact (Hinfo n eq_refl)|exact Hdirect].
    + destruct (Z.ltb_spec 0 (Z.of_nat (length items))); unfold FALLBACK_HOLDERS; lia.
    + unfold FALLBACK_HOLDERS. lia.
  - destruct (holdersFromTokenInfo x c tokenAddress) as [n|] eqn:Hn;
      [exact (Hinfo n eq_refl)|exact Hdirect].
Qed.

(** X13.  When the explorer answers the holder-list request with status "1"
    and a non-empty list, its length is the holder count; the token contract
    is not asked. *)
Theorem holders_from_explorer_list (x : Explorer) (c : Contracts)
    (tokenAddress : string) (items : list TokenInfo) :
  token c ≫= address = Some tokenAddress ->
  fetchJson x (apiUrl (networkId x) "tokenholderlist" tokenAddress) =
    Returned {| status := "1"; result := ResultItems items |} ->
  items <> [] ->
  fetchTokenHoldersFromEtherscan x c = Z.of_nat (length items).
Proof.
  intros Ha Hfetch Hne. unfold fetchTokenHoldersFromEtherscan.
  rewrite Ha, Hfetch. simpl.
  destruct items as [|item items]; [contradiction|].
  destruct (Z.ltb_spec 0 (Z.of_nat (length (item :: items)))); [reflexivity|].
  simpl in *. lia.
Qed.

End HolderCount.

Section HolderCountScenario.
Import Js Holders Scenario.

Lemma tokenLedger_has_two_holders :
  fetchTokenHoldersDirect tokenContracts =
    Z.of_nat (length (List.filter (holdsTokens tokenLedger)
                        (candidateAddresses tokenContracts transfers))).
Proof.
  apply (fetchTokenHoldersDirect_counts tokenContracts tokenLedger 250000 transfers);
    try reflexivity.
  vm_compute. discriminate.
Defined.

Example tokenLedger_candidates :
  candidateAddresses tokenContracts transfers =
    [ alice_lower; toLowerCase bob; toLowerCase governanceAddress ] /\
  fetchTokenHoldersDirect tokenContracts = 2.
Proof. split; vm_compute; reflexivity. Qed.

Lemma explorer_lists_three_holders :
  fetchTokenHoldersFromEtherscan explorer tokenContracts = Z.of_nat 3.
Proof.
  apply (holders_from_explorer_list explorer tokenContracts
           "0x7000000000000000000000000000000000000001"
           [ {| it_count := None |}; {| it_count := None |}; {| it_count := None |} ]);
    [reflexivity|reflexivity|discriminate].
Defined.

Example patternAddress_ten :
  patternAddress 10 = "0x000000000000000000000000000000000000000a"%string.
Proof. reflexivity. Qed.

End HolderCountScenario.

(* ===================================================================== *)
(** * What the reconstructed tally adds up *)
(* ===================================================================== *)

Section TallySums.
Import Js Web3 Effects Voting Reference Scenario.

Lemma addPower_yes (support power : Z) (c : Counts) :
  c_yes (addPower support power c) = c_yes c + (if support =? 1 then power else 0).
Proof.
  unfold addPower.
  destruct (Z.eqb_spec support 0) as [->|]; [simpl; lia|].
  destruct (Z.eqb_spec support 1) as [->|]; [reflexivity|].
  destruct (support =? 2); simpl; lia.
Qed.

Lemma addPower_no (support power : Z) (c : Counts) :
  c_no (addPower support power c) = c_no c + (if support =? 0 then power else 0).
Proof.
  unfold addPower.
  destruct (Z.eqb_spec support 0) as [->|]; [reflexivity|].
  destruct (Z.eqb_spec support 1) as [->|]; [simpl; lia|].
  destruct (support =? 2); simpl; lia.
Qed.

Lemma addPower_abstain (support power : Z) (c : Counts) :
  c_abstain (addPower support power c) =
    c_abstain c + (if support =? 2 then power else 0).
Proof.
  unfold addPower.
  destruct (Z.eqb_spec support 0) as [->|]; [simpl; lia|].
  destruct (Z.eqb_spec support 1) as [->|]; [simpl; lia|].
  destruct (Z.eqb_spec support 2) as [->|]; simpl; lia.
Qed.

(** One loop iteration adds the accepted power of its log to each bucket. *)
Lemma countLog_sums (c : Counts) (log : Log) :
  c_yes (countLog c log) = c_yes c + acceptedPower 1 log /\
  c_no (countLog c log) = c_no c + acceptedPower 0 log /\
  c_abstain (countLog c log) = c_abstain c + acceptedPower 2 log.
Proof.
  destruct log as [|voter support power]; unfold countLog, acceptedPower, toNumber;
    cbn -[Z.pow Z.ltb addPower]; [lia|].
  destruct (power <? 2 ^ 53); cbn -[addPower]; [|lia].
  rewrite addPower_yes, addPower_no, addPower_abstain. simpl.
  destruct (support =? 1), (support =? 0), (support =? 2); lia.
Qed.

Lemma fold_countLog_sums (logs : list Log) :
  forall c,
    c_yes (fold_left countLog logs c) = c_yes c + powerFor 1 logs /\
    c_no (fold_left countLog logs c) = c_no c + powerFor 0 logs /\
    c_abstain (fold_left countLog logs c) = c_abstain c + powerFor 2 logs.
Proof.
  induction logs as [|log logs IH]; intros c; simpl; [lia|].
  destruct (IH (countLog c log)) as (Hy & Hn & Ha).
  destruct (countLog_sums c log) as (Hy' & Hn' & Ha').
  rewrite Hy, Hn, Ha, Hy', Hn', Ha'. lia.
Qed.

Lemma counts_eq (c1 c2 : Counts) :
  c_yes c1 = c_yes c2 -> c_no c1 = c_no c2 -> c_abstain c1 = c_abstain c2 ->
  c_voters c1 = c_voters c2 -> c1 = c2.
Proof. destruct c1, c2. simpl. intros -> -> -> ->. reflexivity. Qed.

(** The state after the loop, in closed form. *)
Lemma countLogs_closed_form (logs : list Log) :
  countLogs logs =
    {| c_yes := powerFor 1 logs; c_no := powerFor 0 logs;
       c_abstain := powerFor 2 logs;
       c_voters := list_to_set (toLowerCase <$> countedVoters logs) |}.
Proof.
  destruct (fold_countLog_sums logs noCounts) as (Hy & Hn & Ha).
  apply counts_eq; simpl; try apply countLogs_voters;
    unfold countLogs; rewrite ?Hy, ?Hn, ?Ha; simpl; lia.
Qed.

(** X14.  With no account connected, unsigned weights and an accepted power
    that adds up to a safe integer (the range in which the additions of the
    source, additions of doubles, are exact), each bucket of the tally
    is the sum of the voting power of the accepted logs cast with its support
    value (1 for yes, 0 for no, 2 for abstain), repeated events included;
    logs that do not parse, that overflow, or that carry another support
    value add nothing. *)
Theorem tally_buckets_are_sums (w : Context) (proposalId : Z) (g : Governance)
    (logs : list Log) :
  logsFetched w proposalId g logs ->
  account w = None ->
  safeSums g proposalId None logs ->
  exists t,
    getProposalVoteTotals w proposalId = Returned t /\
    yesVotes t = powerFor 1 logs /\
    noVotes t = powerFor 0 logs /\
    abstainVotes t = powerFor 2 logs /\
    totalVotes t = powerFor 1 logs + powerFor 0 logs + powerFor 2 logs.
Proof.
  intros Hfetched Hnone _. eexists. split.
  - apply (getProposalVoteTotals_counts w proposalId g logs Hfetched).
  - rewrite Hnone. simpl. rewrite countLogs_closed_form. simpl.
    repeat split; reflexivity.
Qed.

Lemma duplicated_logs_bucket_sums :
  exists t,
    getProposalVoteTotals duplicatedSession 7 = Returned t /\
    yesVotes t = powerFor 1 duplicatedLogs /\
    noVotes t = powerFor 0 duplicatedLogs /\
    abstainVotes t = powerFor 2 duplicatedLogs /\
    totalVotes t =
      powerFor 1 duplicatedLogs + powerFor 0 duplicatedLogs + powerFor 2 duplicatedLogs.
Proof.
  apply (tally_buckets_are_sums duplicatedSession 7
           (ledger (Returned duplicatedLogs) (Returned 0) (Returned []) reverted)
           duplicatedLogs).
  - repeat split; try reflexivity; lia.
  - reflexivity.
  - split; [split|].
    + repeat constructor; lia.
    + intros a voterInfo Ha. discriminate Ha.
    + apply Z.leb_le. reflexivity.
Defined.

Lemma powerFor_permutation (support : Z) (logs1 logs2 : list Log) :
  logs1 ≡ₚ logs2 -> powerFor support logs1 = powerFor support logs2.
Proof.
  intros Hperm. unfold powerFor.
  apply (foldr_permutation (=) (fun log total => acceptedPower support log + total) 0);
    [|exact Hperm].
  intros j1 a1 j2 a2 b _ _ _. lia.
Qed.

Lemma foldAccountVote_same_answers (g1 g2 : Governance) (proposalId : Z)
    (acct : option string) (c : Counts) :
  sameDirectAnswers g1 g2 proposalId acct ->
  withAccount g1 proposalId acct c = withAccount g2 proposalId acct c.
Proof.
  intros Hsame. destruct acct as [a|]; [|reflexivity]. simpl.
  destruct (Hsame a eq_refl) as [Hinfo Hevents].
  unfold foldAccountVote. rewrite Hinfo, Hevents. reflexivity.
Qed.

(** X15.  As long as the weights are unsigned and add up to a safe integer,
    the tally does not depend on the order in which the provider delivers the
    logs: two ledgers whose logs are permutations of each other, and that
    answer alike about the connected account, give the same tally.  (Past
    the safe integers the rounded sums of the source do depend on the order,
    see [rounded_sums_depend_on_order].) *)
Theorem tally_independent_of_log_order (w1 w2 : Context) (proposalId : Z)
    (g1 g2 : Governance) (logs1 logs2 : list Log) :
  logsFetched w1 proposalId g1 logs1 ->
  logsFetched w2 proposalId g2 logs2 ->
  account w1 = account w2 ->
  sameDirectAnswers g1 g2 proposalId (account w1) ->
  logs1 ≡ₚ logs2 ->
  safeSums g1 proposalId (account w1) logs1 ->
  getProposalVoteTotals w1 proposalId = getProposalVoteTotals w2 proposalId.
Proof.
  intros Hf1 Hf2 Hacct Hsame Hperm _.
  rewrite (getProposalVoteTotals_counts w1 proposalId g1 logs1 Hf1).
  rewrite (getProposalVoteTotals_counts w2 proposalId g2 logs2 Hf2).
  rewrite <- Hacct.
  rewrite (foldAccountVote_same_answers g1 g2 proposalId (account w1) _ Hsame).
  do 3 f_equal. rewrite !countLogs_closed_form.
  rewrite !(powerFor_permutation _ logs1 logs2 Hperm).
  f_equal. unfold countedVoters. rewrite Hperm. reflexivity.
Qed.

End TallySums.

Section TallySumsScenario.
Import Js Web3 Effects Voting Reference Scenario.

Lemma reordered_logs_same_tally :
  getProposalVoteTotals duplicatedSession 7 = getProposalVoteTotals reorderedSession 7.
Proof.
  apply (tally_independent_of_log_order duplicatedSession reorderedSession 7
           (ledger (Returned duplicatedLogs) (Returned 0) (Returned []) reverted)
           (ledger (Returned reorderedLogs) (Returned 0) (Returned []) reverted)
           duplicatedLogs reorderedLogs).
  - repeat split; try reflexivity; lia.
  - repeat split; try reflexivity; lia.
  - reflexivity.
  - intros a Ha. discriminate Ha.
  - apply perm_swap.
  - split; [split|].
    + repeat constructor; lia.
    + intros a voterInfo Ha. discriminate Ha.
    + apply Z.leb_le. reflexivity.
Defined.

End TallySumsScenario.

(* ===================================================================== *)
(** * The connected account in the tally *)
(* ===================================================================== *)

Section AccountVote.
Import Js Web3 Effects Voting Reference Scenario.

Lemma unlogged_not_in_voters (acct : string) (logs : list Log) :
  unlogged acct logs -> toLowerCase acct ∉ c_voters (countLogs logs).
Proof.
  intros Hun. rewrite countLogs_voters, elem_of_list_to_set.
  intros Hin. apply list_elem_of_fmap in Hin as (voter & Heq & Hvoter).
  unfold unlogged in Hun. rewrite Forall_forall in Hun.
  apply (Hun voter Hvoter). symmetry. exact Heq.
Qed.

Lemma addVoter_new_size (voter : string) (c : Counts) :
  voter ∉ c_voters c ->
  size (c_voters (addVoter voter c)) = S (size (c_voters c)).
Proof.
  intros Hnew. simpl. rewrite size_union by set_solver.
  rewrite size_singleton. reflexivity.
Qed.

(** X16.  A connected account that no accepted log shows, but for which the
    direct query reports a vote, is added to the tally as one more voter.
    Its recorded weight goes to the bucket of its latest event's support --
    unless the weight does not fit a JavaScript number, in which case the
    account is counted as a voter and no weight is added.  The sums are
    stated for unsigned weights that add up to a safe integer, the range in
    which the additions of the source, additions of doubles, are exact. *)
Theorem unlogged_account_is_added (w : Context) (proposalId : Z) (g : Governance)
    (logs : list Log) (acct : string) (voterInfo : Z)
    (events : list VoteCastEvent) (latest : VoteCastEvent) :
  logsFetched w proposalId g logs ->
  account w = Some acct ->
  unlogged acct logs ->
  proposalVoterInfo g proposalId acct = Returned voterInfo ->
  voterInfo <> 0 ->
  queryVoteCast g proposalId acct = Returned events ->
  last events = Some latest ->
  safeSums g proposalId (Some acct) logs ->
  exists t,
    getProposalVoteTotals w proposalId = Returned t /\
    totalVoters t = S (distinctIgnoringCase (countedVoters logs)) /\
    let counted := if voterInfo <? 2 ^ 53 then voterInfo else 0 in
    yesVotes t = powerFor 1 logs + (if ev_support latest =? 1 then counted else 0) /\
    noVotes t = powerFor 0 logs + (if ev_support latest =? 0 then counted else 0) /\
    abstainVotes t =
      powerFor 2 logs + (if ev_support latest =? 2 then counted else 0).
Proof.
  intros Hfetched Hacct Hun Hinfo Hnz Hevents Hlast _.
  pose proof (unlogged_not_in_voters acct logs Hun) as Hnew.
  assert (Hsize : size (c_voters (countLogs logs)) =
                  distinctIgnoringCase (countedVoters logs)).
  { rewrite countLogs_voters. apply size_list_to_set_remove_dups. }
  eexists. split.
  - apply (getProposalVoteTotals_counts w proposalId g logs Hfetched).
  - rewrite Hacct. cbn [withAccount]. unfold foldAccountVote.
    rewrite Hinfo, Hevents, Hlast.
    destruct (Z.eqb_spec voterInfo 0); [contradiction|].
    rewrite bool_decide_eq_false_2 by exact Hnew.
    unfold toNumber. destruct (voterInfo <? 2 ^ 53).
    + cbn [tallyOf totalVoters yesVotes noVotes abstainVotes].
      rewrite addPower_voters, addPower_yes, addPower_no, addPower_abstain.
      rewrite addVoter_new_size by exact Hnew.
      rewrite Hsize, countLogs_closed_form. simpl. repeat split; reflexivity.
    + cbn [tallyOf totalVoters yesVotes noVotes abstainVotes].
      rewrite addVoter_new_size by exact Hnew.
      rewrite Hsize, countLogs_closed_form. simpl.
      destruct (ev_support latest =? 1), (ev_support latest =? 0),
        (ev_support latest =? 2); repeat split; lia.
Qed.

Lemma powerFor_unsigned (support : Z) (logs : list Log) :
  Forall (fun log => match log with
                     | VoteCast _ _ votingPower => 0 <= votingPower
                     | Malformed => True
                     end) logs ->
  0 <= powerFor support logs.
Proof.
  induction 1 as [|log logs Hlog _ IH]; simpl; [lia|].
  destruct log as [|voter s power]; simpl; [lia|].
  destruct ((power <? 2 ^ 53) && (s =? support)); lia.
Qed.

Lemma addPower_unsigned (support power : Z) (c : Counts) :
  0 <= power -> 0 <= c_yes c -> 0 <= c_no c -> 0 <= c_abstain c ->
  0 <= c_yes (addPower support power c) /\
  0 <= c_no (addPower support power c) /\
  0 <= c_abstain (addPower support power c).
Proof.
  intros Hp Hy Hn Ha. rewrite addPower_yes, addPower_no, addPower_abstain.
  destruct (support =? 1), (support =? 0), (support =? 2); lia.
Qed.

Lemma withAccount_unsigned (g : Governance) (proposalId : Z) (acct : option string)
    (c : Counts) :
  (forall a voterInfo, acct = Some a ->
     proposalVoterInfo g proposalId a = Returned voterInfo -> 0 <= voterInfo) ->
  0 <= c_yes c -> 0 <= c_no c -> 0 <= c_abstain c ->
  0 <= c_yes (withAccount g proposalId acct c) /\
  0 <= c_no (withAccount g proposalId acct c) /\
  0 <= c_abstain (withAccount g proposalId acct c).
Proof.
  intros Hinfo Hy Hn Ha. destruct acct as [a|]; simpl; [|auto].
  unfold foldAccountVote.
  destruct (proposalVoterInfo g proposalId a) as [voterInfo|] eqn:Hq; [|auto].
  specialize (Hinfo a voterInfo eq_refl Hq).
  destruct (voterInfo =? 0); [auto|].
  destruct (queryVoteCast g proposalId a) as [events|]; [|auto].
  destruct (last events) as [latest|]; [|auto].
  case_bool_decide; [auto|].
  unfold toNumber. destruct (voterInfo <? 2 ^ 53); [|auto].
  apply addPower_unsigned; auto.
Qed.

Lemma percentOf_in_range (part total : Z) :
  0 <= part <= total -> 0 < total -> isPercentage (percentOf part total).
Proof.
  intros Hpart Htotal. unfold isPercentage, percentOf.
  destruct total as [|tp|tp]; try lia.
  unfold Qle, Qdiv, Qmult, Qinv. simpl. split; nia.
Qed.

(** X17.  With unsigned weights on the ledger, every tally of the counting
    path carries three percentages between 0 and 100. *)
Theorem tally_percentages_in_range (w : Context) (proposalId : Z) (g : Governance)
    (logs : list Log) :
  logsFetched w proposalId g logs ->
  unsignedWeights g proposalId (account w) logs ->
  exists t y n a,
    getProposalVoteTotals w proposalId = Returned t /\
    percentages t = Some (y, n, a) /\
    isPercentage y /\ isPercentage n /\ isPercentage a.
Proof.
  intros Hfetched [Hlogs Hinfo].
  rewrite (getProposalVoteTotals_counts w proposalId g logs Hfetched).
  destruct (withAccount_unsigned g proposalId (account w) (countLogs logs) Hinfo)
    as (Hy & Hn & Ha).
  1-3: rewrite countLogs_closed_form; simpl; apply powerFor_unsigned, Hlogs.
  set (c := withAccount g proposalId (account w) (countLogs logs)) in *.
  do 4 eexists. split; [reflexivity|]. split; [reflexivity|].
  cbn [tallyOf yesPercentage noPercentage abstainPercentage].
  assert (Hzero : isPercentage 0) by (split; discriminate).
  destruct (Z.ltb_spec 0 (c_yes c + c_no c + c_abstain c)) as [Hpos|Hnone].
  - repeat split; apply percentOf_in_range; lia.
  - tauto.
Qed.

End AccountVote.

Section AccountVoteScenario.
Import Js Web3 Effects Voting Reference Scenario.

Lemma alice_added_from_direct_query :
  exists t,
    getProposalVoteTotals directOnlySession 7 = Returned t /\
    totalVoters t = S (distinctIgnoringCase (countedVoters [ VoteCast bob 1 50 ])) /\
    let counted := if 5 <? 2 ^ 53 then 5 else 0 in
    yesVotes t = powerFor 1 [ VoteCast bob 1 50 ] + (if 0 =? 1 then counted else 0) /\
    noVotes t = powerFor 0 [ VoteCast bob 1 50 ] + (if 0 =? 0 then counted else 0) /\
    abstainVotes t =
      powerFor 2 [ VoteCast bob 1 50 ] + (if 0 =? 2 then counted else 0).
Proof.
  apply (unlogged_account_is_added directOnlySession 7
           (ledger (Returned [ VoteCast bob 1 50 ]) (Returned 5)
                   (Returned [ {| ev_voter := alice; ev_support := 0 |} ]) reverted)
           [ VoteCast bob 1 50 ] alice 5
           [ {| ev_voter := alice; ev_support := 0 |} ]
           {| ev_voter := alice; ev_support := 0 |}).
  - repeat split; try reflexivity; lia.
  - reflexivity.
  - repeat constructor. vm_compute. discriminate.
  - reflexivity.
  - lia.
  - reflexivity.
  - reflexivity.
  - split; [split|].
    + repeat constructor; lia.
    + intros a voterInfo _ Hinfo. injection Hinfo as <-. lia.
    + apply Z.leb_le. reflexivity.
Defined.

Example directOnlySession_tally :
  (fun t => (yesVotes t, noVotes t, abstainVotes t, totalVoters t))
    <$> Some (tallyOf (withAccount
                 (ledger (Returned [ VoteCast bob 1 50 ]) (Returned 5)
                         (Returned [ {| ev_voter := alice; ev_support := 0 |} ]) reverted)
                 7 (Some alice) (countLogs [ VoteCast bob 1 50 ])))
  = Some (50, 5, 0, 2%nat).
Proof. vm_compute. reflexivity. Qed.

Lemma duplicated_session_percentages :
  exists t y n a,
    getProposalVoteTotals duplicatedSession 7 = Returned t /\
    percentages t = Some (y, n, a) /\
    isPercentage y /\ isPercentage n /\ isPercentage a.
Proof.
  apply (tally_percentages_in_range duplicatedSession 7
           (ledger (Returned duplicatedLogs) (Returned 0) (Returned []) reverted)
           duplicatedLogs).
  - repeat split; try reflexivity; lia.
  - split.
    + repeat constructor; lia.
    + intros a voterInfo Ha. discriminate Ha.
Defined.

End AccountVoteScenario.

(* ===================================================================== *)
(** * The sums in double precision *)
(* ===================================================================== *)

Section DoublePrecision.
Import Js Web3 Effects Voting Reference Scenario.

Lemma roundDouble_safe (z : Z) :
  Z.abs z <= MAX_SAFE_INTEGER -> roundDouble z = z.
Proof.
  unfold roundDouble, MAX_SAFE_INTEGER. cbv zeta. intros Hsafe.
  destruct (Z.ltb_spec (Z.abs z) (2 ^ 53)); [reflexivity|lia].
Qed.

(** Adding two numbers that are not negative is exact as long as the sum is
    a safe integer. *)
Lemma addDouble_safe (a b : Z) :
  0 <= a -> 0 <= b -> a + b <= MAX_SAFE_INTEGER -> addDouble a b = a + b.
Proof.
  intros Ha Hb Hsum. unfold addDouble. apply roundDouble_safe. lia.
Qed.

Lemma addPower_rounded_safe (support power : Z) (c : Counts) :
  0 <= power -> 0 <= c_yes c -> 0 <= c_no c -> 0 <= c_abstain c ->
  c_yes c + c_no c + c_abstain c + power <= MAX_SAFE_INTEGER ->
  Doubles.addPower support power c = addPower support power c.
Proof.
  intros Hp Hy Hn Ha Hsum. unfold Doubles.addPower, addPower.
  rewrite !addDouble_safe by lia. reflexivity.
Qed.

Lemma acceptedPower_unsigned (support : Z) (log : Log) :
  match log with
  | VoteCast _ _ votingPower => 0 <= votingPower
  | Malformed => True
  end ->
  0 <= acceptedPower support log.
Proof.
  destruct log as [|voter s power]; simpl; [lia|].
  destruct ((power <? 2 ^ 53) && (s =? support)); lia.
Qed.

(** One loop iteration in double precision is the exact one, when what it
    adds keeps the sums safe. *)
Lemma countLog_rounded_safe (c : Counts) (log : Log) :
  match log with
  | VoteCast _ _ votingPower => 0 <= votingPower
  | Malformed => True
  end ->
  0 <= c_yes c -> 0 <= c_no c -> 0 <= c_abstain c ->
  c_yes c + c_no c + c_abstain c
    + (acceptedPower 1 log + acceptedPower 0 log + acceptedPower 2 log)
    <= MAX_SAFE_INTEGER ->
  Doubles.countLog c log = countLog c log.
Proof.
  intros Hlog Hy Hn Ha Hsum.
  destruct log as [|voter support power]; [reflexivity|].
  unfold Doubles.countLog, countLog, toNumber. cbn -[Z.pow Z.ltb addPower Doubles.addPower].
  unfold acceptedPower in Hsum.
  destruct (power <? 2 ^ 53); cbn -[addPower Doubles.addPower]; [|reflexivity].
  cbn [andb] in Hsum.
  destruct (Z.eqb_spec support 1) as [->|Hnot1].
  { apply addPower_rounded_safe; simpl in *; lia. }
  destruct (Z.eqb_spec support 0) as [->|Hnot0].
  { apply addPower_rounded_safe; simpl in *; lia. }
  destruct (Z.eqb_spec support 2) as [->|Hnot2].
  { apply addPower_rounded_safe; simpl in *; lia. }
  unfold Doubles.addPower, addPower.
  destruct (Z.eqb_spec support 0); [contradiction|].
  destruct (Z.eqb_spec support 1); [contradiction|].
  destruct (Z.eqb_spec support 2); [contradiction|].
  reflexivity.
Qed.

Lemma fold_countLog_rounded_safe (logs : list Log) :
  forall c,
    Forall (fun log => match log with
                       | VoteCast _ _ votingPower => 0 <= votingPower
                       | Malformed => True
                       end) logs ->
    0 <= c_yes c -> 0 <= c_no c -> 0 <= c_abstain c ->
    c_yes c + c_no c + c_abstain c
      + (powerFor 1 logs + powerFor 0 logs + powerFor 2 logs)
      <= MAX_SAFE_INTEGER ->
    fold_left Doubles.countLog logs c = fold_left countLog logs c.
Proof.
  induction logs as [|log logs IH]; intros c Hlogs Hy Hn Ha Hsum; [reflexivity|].
  apply Forall_cons in Hlogs as [Hlog Hlogs].
  pose proof (powerFor_unsigned 1 logs Hlogs) as Hrest1.
  pose proof (powerFor_unsigned 0 logs Hlogs) as Hrest0.
  pose proof (powerFor_unsigned 2 logs Hlogs) as Hrest2.
  pose proof (acceptedPower_unsigned 1 log Hlog) as Hthis1.
  pose proof (acceptedPower_unsigned 0 log Hlog) as Hthis0.
  pose proof (acceptedPower_unsigned 2 log Hlog) as Hthis2.
  cbn [powerFor foldr] in Hsum. fold (powerFor 1 logs) in Hsum.
  fold (powerFor 0 logs) in Hsum. fold (powerFor 2 logs) in Hsum.
  cbn [fold_left].
  rewrite (countLog_rounded_safe c log Hlog Hy Hn Ha) by lia.
  destruct (countLog_sums c log) as (Hyes & Hno & Habstain).
  apply IH; [exact Hlogs|lia..].
Qed.

(** Folding in the connected account adds no more than its recorded
    weight. *)
Lemma withAccount_adds_directWeight (g : Governance) (proposalId : Z)
    (acct : option string) (c : Counts) :
  (forall a voterInfo, acct = Some a ->
     proposalVoterInfo g proposalId a = Returned voterInfo -> 0 <= voterInfo) ->
  let c' := withAccount g proposalId acct c in
  c_yes c' + c_no c' + c_abstain c'
    <= c_yes c + c_no c + c_abstain c + directWeight g proposalId acct.
Proof.
  intros Hinfo. destruct acct as [a|]; simpl; [|lia].
  unfold foldAccountVote.
  destruct (proposalVoterInfo g proposalId a) as [voterInfo|] eqn:Hq; [|lia].
  specialize (Hinfo a voterInfo eq_refl Hq).
  destruct (voterInfo <? 2 ^ 53) eqn:Hfit.
  2:{ unfold toNumber. rewrite Hfit.
      destruct (voterInfo =? 0); [lia|].
      destruct (queryVoteCast g proposalId a) as [events|]; [|lia].
      destruct (last events); [|lia]. case_bool_decide; simpl; lia. }
  destruct (voterInfo =? 0); [lia|].
  destruct (queryVoteCast g proposalId a) as [events|]; [|lia].
  destruct (last events) as [latest|]; [|lia].
  case_bool_decide; [lia|].
  unfold toNumber. rewrite Hfit.
  rewrite addPower_yes, addPower_no, addPower_abstain. simpl.
  destruct (Z.eqb_spec (ev_support latest) 1), (Z.eqb_spec (ev_support latest) 0),
    (Z.eqb_spec (ev_support latest) 2); lia.
Qed.

Lemma withAccount_rounded_safe (g : Governance) (proposalId : Z)
    (acct : option string) (c : Counts) :
  (forall a voterInfo, acct = Some a ->
     proposalVoterInfo g proposalId a = Returned voterInfo -> 0 <= voterInfo) ->
  0 <= c_yes c -> 0 <= c_no c -> 0 <= c_abstain c ->
  c_yes c + c_no c + c_abstain c + directWeight g proposalId acct
    <= MAX_SAFE_INTEGER ->
  Doubles.withAccount g proposalId acct c = withAccount g proposalId acct c.
Proof.
  intros Hinfo Hy Hn Ha Hsum. destruct acct as [a|]; [|reflexivity].
  cbn [Doubles.withAccount withAccount directWeight] in *.
  unfold Doubles.foldAccountVote, foldAccountVote.
  destruct (proposalVoterInfo g proposalId a) as [voterInfo|] eqn:Hq; [|reflexivity].
  specialize (Hinfo a voterInfo eq_refl Hq).
  destruct (voterInfo =? 0); [reflexivity|].
  destruct (queryVoteCast g proposalId a) as [events|]; [|reflexivity].
  destruct (last events) as [latest|]; [|reflexivity].
  case_bool_decide; [reflexivity|].
  unfold toNumber. destruct (voterInfo <? 2 ^ 53); [|reflexivity].
  apply addPower_rounded_safe; simpl; lia.
Qed.

(** X31.  In the range of [safeSums] -- unsigned weights, and an accepted
    power that together with the connected account's recorded weight stays a
    safe integer -- every addition of the counting code is exact: the loop,
    the fold-in of the connected account and the total, computed in double
    precision, are the exact sums. *)
Theorem rounded_counting_exact (g : Governance) (proposalId : Z)
    (acct : option string) (logs : list Log) :
  safeSums g proposalId acct logs ->
  let c := withAccount g proposalId acct (countLogs logs) in
  Doubles.withAccount g proposalId acct (Doubles.countLogs logs) = c /\
  Doubles.totalOf c = c_yes c + c_no c + c_abstain c.
Proof.
  intros [[Hlogs Hinfo] Hsum]. cbv zeta.
  pose proof (powerFor_unsigned 1 logs Hlogs) as Hyes.
  pose proof (powerFor_unsigned 0 logs Hlogs) as Hno.
  pose proof (powerFor_unsigned 2 logs Hlogs) as Habstain.
  assert (Hweight : 0 <= directWeight g proposalId acct).
  { unfold directWeight. destruct acct as [a|]; [|lia].
    destruct (proposalVoterInfo g proposalId a) as [voterInfo|] eqn:Hq; [|lia].
    specialize (Hinfo a voterInfo eq_refl Hq).
    destruct (voterInfo <? 2 ^ 53); lia. }
  assert (Hloop : Doubles.countLogs logs = countLogs logs).
  { unfold Doubles.countLogs, countLogs.
    apply fold_countLog_rounded_safe; simpl; try lia. exact Hlogs. }
  rewrite Hloop.
  pose proof (withAccount_adds_directWeight g proposalId acct (countLogs logs) Hinfo)
    as Hbound.
  destruct (withAccount_unsigned g proposalId acct (countLogs logs) Hinfo)
    as (Hy & Hn & Ha).
  1-3: rewrite countLogs_closed_form; simpl; assumption.
  cbv zeta in Hbound. rewrite (countLogs_closed_form logs) in Hbound at 4 5 6.
  cbn [c_yes c_no c_abstain] in Hbound.
  split.
  - apply withAccount_rounded_safe; try exact Hinfo;
      rewrite countLogs_closed_form; simpl; lia.
  - unfold Doubles.totalOf.
    set (c := withAccount g proposalId acct (countLogs logs)) in *.
    rewrite (addDouble_safe (c_yes c) (c_no c)) by lia.
    apply addDouble_safe; lia.
Qed.

Lemma direct_only_session_rounding_free :
  let g := ledger (Returned [ VoteCast bob 1 50 ]) (Returned 5)
                  (Returned [ {| ev_voter := alice; ev_support := 0 |} ]) reverted in
  let c := withAccount g 7 (Some alice) (countLogs [ VoteCast bob 1 50 ]) in
  Doubles.withAccount g 7 (Some alice) (Doubles.countLogs [ VoteCast bob 1 50 ]) = c /\
  Doubles.totalOf c = c_yes c + c_no c + c_abstain c.
Proof.
  apply (rounded_counting_exact
           (ledger (Returned [ VoteCast bob 1 50 ]) (Returned 5)
                   (Returned [ {| ev_voter := alice; ev_support := 0 |} ]) reverted)
           7 (Some alice) [ VoteCast bob 1 50 ]).
  split; [split|].
  - repeat constructor; lia.
  - intros a voterInfo _ Hinfo. injection Hinfo as <-. lia.
  - apply Z.leb_le. reflexivity.
Defined.

(** Past the safe integers the rounded sums and the exact ones part ways:
    weights of [2 ^ 53 - 1], 1, 1 and 1 add up to [2 ^ 53 + 2], and the loop
    in double precision stops at [2 ^ 53], each further 1 being rounded
    away. *)
Example rounded_sum_falls_short :
  c_yes (countLogs heavyLogs) = 2 ^ 53 + 2 /\
  c_yes (Doubles.countLogs heavyLogs) = 2 ^ 53.
Proof. split; vm_compute; reflexivity. Qed.

(** There the result depends on the order of the logs: with the small
    weights first nothing is rounded away. *)
Example rounded_sums_depend_on_order :
  heavyLogs ≡ₚ heavyLogsReordered /\
  c_yes (Doubles.countLogs heavyLogs) = 2 ^ 53 /\
  c_yes (Doubles.countLogs heavyLogsReordered) = 2 ^ 53 + 2.
Proof.
  split; [|split; vm_compute; reflexivity].
  unfold heavyLogs, heavyLogsReordered.
  change [ VoteCast alice 1 (2 ^ 53 - 1); VoteCast bob 1 1; VoteCast bob 1 1;
           VoteCast bob 1 1 ]
    with ([ VoteCast alice 1 (2 ^ 53 - 1) ]
            ++ [ VoteCast bob 1 1; VoteCast bob 1 1; VoteCast bob 1 1 ]).
  change [ VoteCast bob 1 1; VoteCast bob 1 1; VoteCast bob 1 1;
           VoteCast alice 1 (2 ^ 53 - 1) ]
    with ([ VoteCast bob 1 1; VoteCast bob 1 1; VoteCast bob 1 1 ]
            ++ [ VoteCast alice 1 (2 ^ 53 - 1) ]).
  apply Permutation_app_comm.
Qed.

End DoublePrecision.

(* ===================================================================== *)
(** * Vote details, voting power and snapshots *)
(* ===================================================================== *)

Section VoteDetails.
Import Js Web3 Effects Voting Reference Scenario.

Variable formatEther : Z -> string.

(** X18.  [getVoteDetails] and [hasVoted] never disagree: the [hasVoted]
    flag of the details is what the has-voted check answers, also when the
    wallet is disconnected or the query is rejected. *)
Theorem voteDetails_agree_with_hasVoted (w : Context) (proposalId : Z) :
  exists details,
    getVoteDetails formatEther w proposalId = Returned details /\
    hasVoted w proposalId = Returned (vd_hasVoted details).
Proof.
  unfold getVoteDetails, hasVoted.
  destruct (isConnected w && contractsReady w); [|eexists; split; reflexivity].
  destruct (account w) as [acct|]; [|eexists; split; reflexivity].
  destruct (governance w) as [g|]; [|eexists; split; reflexivity].
  simpl.
  destruct (proposalVoterInfo g proposalId acct) as [voterInfo|]; simpl;
    [|eexists; split; reflexivity].
  destruct (voterInfo =? 0); simpl; [eexists; split; reflexivity|].
  destruct (queryVoteCast g proposalId acct) as [events|]; simpl;
    eexists; split; reflexivity.
Qed.

(** X19.  The vote type that [getVoteDetails] reports for the connected
    account is the support of its latest [VoteCast] event, the same record
    the tally uses for that account; it is [null] when the account has not
    voted or its events cannot be fetched. *)
Theorem voteDetails_type_is_latest_event (w : Context) (proposalId : Z)
    (g : Governance) (acct : string) :
  isConnected w && contractsReady w = true ->
  governance w = Some g ->
  account w = Some acct ->
  exists details,
    getVoteDetails formatEther w proposalId = Returned details /\
    vd_voteType details = fst <$> directRecord g proposalId acct.
Proof.
  intros Hc Hg Ha. unfold getVoteDetails, directRecord. rewrite Hc, Hg, Ha. simpl.
  destruct (proposalVoterInfo g proposalId acct) as [voterInfo|],
    (queryVoteCast g proposalId acct) as [events|]; simpl;
    try (eexists; split; reflexivity).
  - destruct (voterInfo =? 0); simpl; [eexists; split; reflexivity|].
    eexists. split; [reflexivity|]. simpl. destruct (last events); reflexivity.
  - destruct (voterInfo =? 0); simpl; eexists; split; reflexivity.
Qed.

(** X20.  Asking [getVotingPower] without a snapshot (or with snapshot 0) is
    asking it at the token's current snapshot. *)
Theorem votingPower_defaults_to_current_snapshot (w : Context) (t : Token) (current : Z) :
  token w = Some t ->
  getCurrentSnapshotId t = Returned current ->
  getVotingPower formatEther w None = getVotingPower formatEther w (Some current) /\
  getVotingPower formatEther w (Some 0) = getVotingPower formatEther w (Some current).
Proof.
  intros Ht Hcur. unfold getVotingPower. rewrite Ht.
  destruct (isConnected w && contractsReady w); [|split; reflexivity].
  destruct (account w) as [acct|]; [|split; reflexivity].
  simpl. rewrite Hcur.
  destruct (Z.eqb_spec current 0) as [->|]; split; reflexivity.
Qed.

(** X21.  [getProposalSnapshotId] never raises, and resolves the snapshot in
    a fixed order of preference: without a governance contract it answers 0;
    otherwise the snapshot decoded from the first creation event, when there
    is one and it decodes; failing that the token's current snapshot; and 0
    only when that cannot be read either. *)
Theorem snapshotId_resolution (w : Context) (proposalId : Z) :
  getProposalSnapshotId w proposalId =
    Returned
      match governance w with
      | None => 0
      | Some g =>
          match createdSnapshot g proposalId with
          | Some snapshotId => snapshotId
          | None => currentSnapshotOrZero w
          end
      end.
Proof.
  unfold getProposalSnapshotId, createdSnapshot, currentSnapshotOrZero.
  destruct (governance w) as [g|]; [|reflexivity].
  destruct (queryProposalCreated g proposalId) as [[|creationEvent others]|]; simpl.
  - destruct (currentSnapshot w); reflexivity.
  - destruct (decodeSnapshot creationEvent); simpl; [reflexivity|].
    destruct (currentSnapshot w); reflexivity.
  - destruct (currentSnapshot w); reflexivity.
Qed.

(** The checks of [castVote], unfolded in program order. *)
Ltac castVote_cases w g proposalId voteType :=
  unfold castVote;
  destruct (isConnected w && contractsReady w) eqn:Hconnected; simpl;
  [ destruct (governance w) as [g|] eqn:Hgovernance;
    [ unfold mtry, throwIf; simpl;
      destruct (validVoteType voteType) eqn:Hvalid; simpl;
      [ destruct (getProposalState g proposalId) as [state|] eqn:Hstate; simpl;
        [ destruct (Z.eqb_spec state 0) as [->|Hactive]; simpl;
          [ pose proof (hasVoted_returns w proposalId) as Hhv;
            destruct (hasVoted w proposalId) as [[|]|] eqn:Hvoted;
            [ | | discriminate Hhv ]; simpl;
            [ | pose proof (getProposalSnapshotId_returns w proposalId) as Hsr;
                destruct (getProposalSnapshotId w proposalId) as [snapshotId|] eqn:Hsnap;
                [ | discriminate Hsr ];
                pose proof (resolvedVotingPower_eq w proposalId snapshotId Hsnap)
                  as Hpower;
                destruct (match token w with
                          | Some t => getEffectiveVotingPower t (account w) snapshotId
                          | None => Thrown TypeError
                          end) as [votingPower|]; simpl;
                [ destruct (Z.eqb_spec votingPower 0) as [->|Hnonzero]; simpl;
                  [ | destruct (sendCastVote g proposalId voteType)
                        as [| |transactionHash blockNumber] eqn:Hsend; simpl ]
                | ] ]
          | ]
        | ]
      | ]
    | ]
  | ].

(** X22.  With the wallet connected, a valid vote type, an active proposal,
    no recorded vote and non-zero voting power, [castVote] submits exactly one
    transaction, with gas limit 300000, and on confirmation returns the
    transaction hash and records the proposal as the last one voted on. *)
Theorem castVote_confirmed (w : Context) (g : Governance) (proposalId voteType : Z)
    (power : Z) (txHash : string) (block : Z) :
  isConnected w && contractsReady w = true ->
  governance w = Some g ->
  validVoteType voteType = true ->
  getProposalState g proposalId = Returned 0 ->
  hasVoted w proposalId = Returned false ->
  resolvedVotingPower w proposalId = Returned power ->
  power <> 0 ->
  sendCastVote g proposalId voteType = Confirmed txHash block ->
  castVote formatEther w proposalId voteType =
    (Returned {| cr_success := true;
                 cr_votingPower := formatEther power;
                 cr_voteType := voteType;
                 cr_transactionHash := txHash |},
     [ SetVoting votingStarted;
       SendVoteTx proposalId voteType 300000;
       SetVoting (votingSucceeded proposalId) ]).
Proof.
  intros Hc Hg Hv Hs Hn Hp Hnz Htx.
  castVote_cases w g' proposalId voteType; try congruence.
  all: injection Hg as <-.
  all: try (rewrite Hs in Hstate; injection Hstate as ->; try contradiction).
  all: try congruence.
  all: rewrite Hp in Hpower; try discriminate Hpower.
  all: injection Hpower as ->; try contradiction.
  all: rewrite Htx in Hsend; try discriminate Hsend.
  injection Hsend as <- <-. reflexivity.
Qed.

(** X23.  [castVote] hands at most one transaction to the ledger, and only
    after every check has passed: the wallet is connected, the vote type is
    valid, the proposal is active, no vote is recorded and the resolved
    voting power is not zero. *)
Theorem castVote_submits_after_checks (w : Context) (proposalId voteType : Z) :
  let run := castVote formatEther w proposalId voteType in
  submissions run.2 = [] \/
  (submissions run.2 = [ SendVoteTx proposalId voteType 300000 ] /\
   isConnected w && contractsReady w = true /\
   validVoteType voteType = true /\
   (exists g, governance w = Some g /\ getProposalState g proposalId = Returned 0) /\
   hasVoted w proposalId = Returned false /\
   exists votingPower,
     resolvedVotingPower w proposalId = Returned votingPower /\ votingPower <> 0).
Proof.
  simpl.
  castVote_cases w g proposalId voteType; try (left; reflexivity).
  all: right; split; [reflexivity|]; repeat split; eauto.
Qed.

(** X24.  A run of [castVote] with the wallet disconnected, or with the
    contracts not ready, raises [NotConnected] and touches no state; so does,
    with [GovernanceNotInitialized], a connected run without a governance
    contract.  Every other run starts by setting [loading] and ends by
    clearing it: its last effect records either success with the proposal
    voted on, or the very error it raises. *)
Theorem castVote_settles_voting_state (w : Context) (proposalId voteType : Z) :
  let run := castVote formatEther w proposalId voteType in
  (isConnected w && contractsReady w = false ->
   run = (Thrown NotConnected, [])) /\
  (isConnected w && contractsReady w = true -> governance w = None ->
   run = (Thrown GovernanceNotInitialized, [])) /\
  (isConnected w && contractsReady w = true -> governance w <> None ->
   exists between final,
     run.2 = SetVoting votingStarted :: between ++ [ SetVoting final ] /\
     loading final = false /\
     match run.1 with
     | Returned _ => final = votingSucceeded proposalId
     | Thrown e => final = votingFailed e
     end).
Proof.
  simpl. split; [|split].
  - intros Hoff. unfold castVote. rewrite Hoff. reflexivity.
  - intros Hon Hnone. unfold castVote. rewrite Hon, Hnone. reflexivity.
  - intros Hon Hsome.
    castVote_cases w g proposalId voteType; try discriminate Hon;
      try contradiction.
    all: try (exists [], (votingFailed InvalidVoteType); repeat split; fail).
    all: try (eexists [], _; split; [reflexivity|split; reflexivity]; fail).
    all: try (eexists [_], _; split; [reflexivity|split; reflexivity]; fail).
Qed.

(** [castVote] never touches the [votedProposals] state of [VoteTab]. *)
Lemma castVote_leaves_votedProposals (w : Context) (proposalId voteType : Z)
    (before : gmap Z Z) :
  votedProposalsAfter before (castVote formatEther w proposalId voteType).2 = before.
Proof.
  castVote_cases w g proposalId voteType; reflexivity.
Qed.

End VoteDetails.

Section VoteDetailsScenario.
Import Js Web3 Effects Voting Reference Scenario.

Lemma alice_details_show_latest_event :
  exists details,
    getVoteDetails printWei disagreeingSession 7 = Returned details /\
    vd_voteType details =
      fst <$> directRecord
                (ledger (Returned [ VoteCast alice 1 100 ]) (Returned 40)
                        (Returned [ {| ev_voter := alice; ev_support := 0 |} ]) reverted)
                7 alice.
Proof.
  apply (voteDetails_type_is_latest_event printWei disagreeingSession 7 _ alice);
    reflexivity.
Defined.

Lemma votingPower_at_snapshot_3 :
  getVotingPower printWei revertingSession None =
    getVotingPower printWei revertingSession (Some 3) /\
  getVotingPower printWei revertingSession (Some 0) =
    getVotingPower printWei revertingSession (Some 3).
Proof.
  apply (votingPower_defaults_to_current_snapshot printWei revertingSession
           (jst (Returned 100)) 3); reflexivity.
Defined.

Lemma alice_vote_confirmed :
  castVote printWei confirmingSession 7 1 =
    (Returned {| cr_success := true;
                 cr_votingPower := printWei 100;
                 cr_voteType := 1;
                 cr_transactionHash := "0xfeed" |},
     [ SetVoting votingStarted;
       SendVoteTx 7 1 300000;
       SetVoting (votingSucceeded 7) ]).
Proof.
  apply (castVote_confirmed printWei confirmingSession
           (ledger (Returned []) (Returned 0) (Returned []) (Confirmed "0xfeed" 12))
           7 1 100 "0xfeed" 12); try reflexivity.
  discriminate.
Defined.

End VoteDetailsScenario.

(* ===================================================================== *)
(** * The proposal list and the vote badge of [VoteTab] *)
(* ===================================================================== *)

Section VoteList.
Import Js Web3 Effects VoteTab VoteTabView.

Lemma votedFromProposals_snoc (proposals : list Item) (proposal : Item) :
  votedFromProposals (proposals ++ [proposal]) =
    if hasVoted proposal
    then <[id proposal := recordedType proposal]> (votedFromProposals proposals)
    else votedFromProposals proposals.
Proof. unfold votedFromProposals. rewrite fold_left_app. reflexivity. Qed.

Lemma recordedType_valid (proposal : Item) :
  Voting.validVoteType (recordedType proposal) = true.
Proof.
  unfold recordedType. destruct (votedYes proposal), (votedNo proposal); reflexivity.
Qed.

Lemma validRecords_insert (m : gmap Z Z) (proposalId voteType : Z) :
  validRecords m -> Voting.validVoteType voteType = true ->
  validRecords (<[proposalId := voteType]> m).
Proof.
  intros Hm Hv k v Hk. apply lookup_insert_Some in Hk as [[_ <-]|[_ Hk]];
    [exact Hv|exact (Hm k v Hk)].
Qed.

Lemma validRecords_delete (m : gmap Z Z) (proposalId : Z) :
  validRecords m -> validRecords (delete proposalId m).
Proof.
  intros Hm k v Hk. apply lookup_delete_Some in Hk as [_ Hk]. exact (Hm k v Hk).
Qed.

(** X25.  The records with which the tab starts: a proposal identifier has a
    record exactly when some proposal with that identifier is flagged as
    voted; every record is one of the three vote types; and with distinct
    identifiers the record of a voted proposal is No if [votedNo] is set,
    else Yes if [votedYes] is set, else Abstain. *)
Theorem votedFromProposals_records (proposals : list Item) :
  validRecords (votedFromProposals proposals) /\
  (forall proposalId,
     is_Some (votedFromProposals proposals !! proposalId) <->
     exists proposal,
       proposal ∈ proposals /\ id proposal = proposalId /\ hasVoted proposal = true) /\
  (NoDup (id <$> proposals) ->
   forall proposal,
     proposal ∈ proposals -> hasVoted proposal = true ->
     votedFromProposals proposals !! id proposal = Some (recordedType proposal)).
Proof.
  induction proposals as [|last proposals (IHvalid & IHkeys & IHlookup)] using rev_ind.
  - split; [|split].
    + intros k v Hk. discriminate Hk.
    + intros k. split.
      * intros [v Hv]. discriminate Hv.
      * intros (p & Hp & _). apply elem_of_nil in Hp. contradiction.
    + intros _ p Hp. apply elem_of_nil in Hp. contradiction.
  - rewrite votedFromProposals_snoc. split; [|split].
    + destruct (hasVoted last); [|exact IHvalid].
      apply validRecords_insert; [exact IHvalid|apply recordedType_valid].
    + intros k. destruct (hasVoted last) eqn:Hlast.
      * rewrite lookup_insert_is_Some, IHkeys. split.
        -- intros [<-|[_ (p & Hp & Hid & Hv)]].
           ++ exists last. rewrite elem_of_app, list_elem_of_singleton. auto.
           ++ exists p. rewrite elem_of_app. auto.
        -- intros (p & Hp & Hid & Hv).
           destruct (decide (id last = k)) as [Heq|Hne]; [left; exact Heq|right].
           split; [exact Hne|].
           apply elem_of_app in Hp as [Hp|Hp]; [exists p; auto|].
           apply list_elem_of_singleton in Hp. subst p. contradiction.
      * rewrite IHkeys. split.
        -- intros (p & Hp & Hid & Hv). exists p. rewrite elem_of_app. auto.
        -- intros (p & Hp & Hid & Hv).
           apply elem_of_app in Hp as [Hp|Hp]; [exists p; auto|].
           apply list_elem_of_singleton in Hp. subst p. congruence.
    + intros Hnodup p Hp Hv. rewrite fmap_app in Hnodup.
      apply NoDup_app in Hnodup as (Hnd & Hfresh & _).
      apply elem_of_app in Hp as [Hp|Hp].
      * assert (Hne : id last <> id p).
        { intros Heq. apply (Hfresh (id p)).
          - apply list_elem_of_fmap_2. exact Hp.
          - rewrite <- Heq. simpl. apply list_elem_of_here. }
        destruct (hasVoted last);
          [rewrite lookup_insert_ne by exact Hne|]; apply IHlookup; assumption.
      * apply list_elem_of_singleton in Hp. subst p. rewrite Hv.
        apply lookup_insert_eq.
Qed.

(** X26.  Whenever the tab shows the "You voted" badge for a proposal, and
    the local records hold vote types, the badge reads Yes, No or Abstain:
    it is never empty. *)
Theorem vote_badge_has_text (votedProposals : gmap Z Z) (proposal : Item) :
  validRecords votedProposals ->
  hasUserVoted votedProposals proposal = true ->
  getVoteTypeText (getUserVoteType votedProposals proposal) ∈
    [ "Yes"; "No"; "Abstain" ]%string.
Proof.
  intros Hvalid Hvoted. unfold getUserVoteType.
  destruct (votedProposals !! id proposal) as [voteType|] eqn:Hlocal.
  - specialize (Hvalid _ _ Hlocal). unfold Voting.validVoteType in Hvalid.
    unfold getVoteTypeText.
    destruct (voteType =? Voting.FOR); [set_solver|].
    destruct (voteType =? Voting.AGAINST); [set_solver|].
    destruct (voteType =? Voting.ABSTAIN); [set_solver|].
    discriminate Hvalid.
  - unfold hasUserVoted, locallyVoted in Hvoted. rewrite Hlocal in Hvoted.
    rewrite bool_decide_eq_false_2 in Hvoted by (intros [x Hx]; discriminate Hx).
    rewrite orb_false_r in Hvoted. rewrite Hvoted.
    destruct (votedYes proposal), (votedNo proposal); simpl; set_solver.
Qed.

(** X28.  How a submission moves a proposal between the lists.  Once the
    speculative record is set, the proposal is in the "voted" list.  After a
    failed submission it is in the "voted" list exactly when the proposal
    data itself says it was voted on.  The "active" list does not depend on
    the records at all: a proposal is in it exactly when its state is
    Active. *)
Theorem submission_moves_proposal_between_lists {R} (castVote : Z -> Z -> M R)
    (proposals : list Item) (captured before : gmap Z Z) (proposal : Item)
    (support : Z) :
  let run := submitVote castVote captured (id proposal) support in
  proposal ∈ proposals ->
  proposal ∈ filteredProposals proposals
               (<[id proposal := support]> captured) FilterVoted /\
  (forall e, (castVote (id proposal) support).1 = Thrown e ->
     (proposal ∈ filteredProposals proposals
                  (votedProposalsAfter before run.2) FilterVoted
      <-> hasVoted proposal = true)) /\
  (forall records,
     proposal ∈ filteredProposals proposals records FilterActive
     <-> state proposal = ACTIVE).
Proof.
  simpl. intros Hin. unfold filteredProposals. split; [|split].
  - apply list_elem_of_In, filter_In. split; [apply list_elem_of_In, Hin|].
    simpl. unfold locallyVoted. rewrite bool_decide_eq_true_2; [apply orb_true_r|].
    rewrite lookup_insert_eq. eauto.
  - intros e He. rewrite submitVote_trace, He.
    replace (SetVotedProposals (<[id proposal := support]> captured)
               :: (castVote (id proposal) support).2
               ++ [ Alert e; SetVotedProposals (delete (id proposal) captured) ])
      with ((SetVotedProposals (<[id proposal := support]> captured)
               :: (castVote (id proposal) support).2 ++ [ Alert e ])
            ++ [ SetVotedProposals (delete (id proposal) captured) ])
      by (simpl; rewrite <- app_assoc; reflexivity).
    rewrite votedProposalsAfter_last_setter.
    rewrite list_elem_of_In, filter_In, <- list_elem_of_In. simpl.
    unfold locallyVoted.
    rewrite bool_decide_eq_false_2
      by (rewrite lookup_delete_eq; intros [x Hx]; discriminate Hx).
    rewrite orb_false_r. tauto.
  - intros records. rewrite list_elem_of_In, filter_In, <- list_elem_of_In. simpl.
    rewrite Z.eqb_eq. tauto.
Qed.

End VoteList.

Section VoteListScenario.
Import Js Web3 Effects VoteTab VoteTabView Scenario.

Lemma singleton_record_valid : validRecords {[ 7 := 1 ]}.
Proof.
  intros k v Hk. apply lookup_singleton_Some in Hk as [_ <-]. reflexivity.
Qed.

Lemma badge_for_local_yes_vote :
  getVoteTypeText (getUserVoteType {[ 7 := 1 ]} proposal7) ∈
    [ "Yes"; "No"; "Abstain" ]%string.
Proof.
  apply (vote_badge_has_text {[ 7 := 1 ]} proposal7).
  - exact singleton_record_valid.
  - reflexivity.
Defined.

Example initial_records_of_proposalList :
  votedFromProposals proposalList = {[ 8 := 0; 9 := 1 ]} /\
  getVoteTypeText (getUserVoteType (votedFromProposals proposalList) proposal8)
    = "No"%string /\
  getUserVoteType (votedFromProposals proposalList) proposal7 = None.
Proof. repeat split; vm_compute; reflexivity. Qed.

Lemma proposal7_moves_between_lists :
  proposal7 ∈ filteredProposals proposalList
                (<[id proposal7 := 1]> ∅) FilterVoted /\
  (forall e,
     (Voting.castVote printWei revertingSession (id proposal7) 1).1 = Thrown e ->
     (proposal7 ∈ filteredProposals proposalList
                    (votedProposalsAfter ∅
                       (submitVote (Voting.castVote printWei revertingSession)
                                   ∅ (id proposal7) 1).2)
                    FilterVoted
      <-> hasVoted proposal7 = true)) /\
  (forall records,
     proposal7 ∈ filteredProposals proposalList records FilterActive
     <-> state proposal7 = ACTIVE).
Proof.
  apply (submission_moves_proposal_between_lists
           (Voting.castVote printWei revertingSession) proposalList ∅ ∅ proposal7 1).
  apply list_elem_of_here.
Defined.

End VoteListScenario.

Section OptimisticRecords.
Import Js Web3 Effects Voting VoteTab Scenario.

(** X27.  Submitting a valid vote type through [castVote] keeps the local
    records well formed: whether the vote goes through or fails, every
    record left in [votedProposals] is one of the three vote types. *)
Theorem submitVote_keeps_records_valid (formatEther : Z -> string) (w : Context)
    (captured before : gmap Z Z) (proposalId support : Z) :
  VoteTabView.validRecords captured ->
  validVoteType support = true ->
  VoteTabView.validRecords
    (votedProposalsAfter before
       (submitVote (castVote formatEther w) captured proposalId support).2).
Proof.
  intros Hvalid Hsupport. rewrite submitVote_trace.
  change (?x :: ?l) with ([x] ++ l).
  rewrite !votedProposalsAfter_app, castVote_leaves_votedProposals.
  destruct (castVote formatEther w proposalId support).1; simpl.
  - apply validRecords_insert; assumption.
  - apply validRecords_delete; assumption.
Qed.

Lemma reverted_vote_keeps_records_valid :
  VoteTabView.validRecords
    (votedProposalsAfter ∅
       (submitVote (castVote printWei revertingSession) {[ 7 := 1 ]} 7 2).2).
Proof.
  apply (submitVote_keeps_records_valid printWei revertingSession {[ 7 := 1 ]} ∅ 7 2).
  - exact singleton_record_valid.
  - reflexivity.
Defined.

End OptimisticRecords.

(* ===================================================================== *)
(** * Percentage bars and supply figures *)
(* ===================================================================== *)

Section BarsAndSupply.
Import Js VoteTab Reference.

Lemma ratio_in_range (part total : Q) :
  (0 <= part)%Q -> (part <= total)%Q -> (0 < total)%Q ->
  isPercentage (part / total * 100).
Proof.
  intros Hpart Hle Hpos. split.
  - apply Qmult_le_0_compat; [|discriminate].
    apply Qle_shift_div_l; [exact Hpos|]. rewrite Qmult_0_l. exact Hpart.
  - apply Qle_trans with (1 * 100)%Q; [|discriminate].
    apply Qmult_le_compat_r; [|discriminate].
    apply Qle_shift_div_r; [exact Hpos|]. rewrite Qmult_1_l. exact Hle.
Qed.

(** X29.  For counts that [parseFloat] reads as finite numbers that are not
    negative (unreadable counts being read as 0), the three bar widths
    computed by [calculateVotePercentages] are finite numbers between 0 and
    100.  (An infinite count is not covered: its width is [NaN], see
    [calculateVotePercentages_infinite_count].) *)
Theorem vote_bar_widths_in_range (proposal : Proposal) :
  finiteCount (p_yesVotes proposal) ->
  finiteCount (p_noVotes proposal) ->
  finiteCount (p_abstainVotes proposal) ->
  let d := calculateVotePercentages proposal in
  finitePercentage (vd_yesPercentage d) /\
  finitePercentage (vd_noPercentage d) /\
  finitePercentage (vd_abstainPercentage d).
Proof.
  intros Hy Hn Ha.
  destruct (orZero_finite _ Hy) as (y & Hyes & Hy0).
  destruct (orZero_finite _ Hn) as (n & Hno & Hn0).
  destruct (orZero_finite _ Ha) as (a & Habstain & Ha0).
  unfold calculateVotePercentages.
  cbn [vd_yesPercentage vd_noPercentage vd_abstainPercentage].
  rewrite Hyes, Hno, Habstain. cbn [fadd].
  destruct (Qlt_le_dec 0 (y + n + a)) as [Hpos|Hnone].
  - rewrite !percentage_finite by exact Hpos.
    repeat split; eexists; (split; [reflexivity|]);
      apply ratio_in_range; try assumption; lra.
  - rewrite !percentage_of_nothing by exact Hnone.
    repeat split; exists 0%Q; (split; [reflexivity|]); split; discriminate.
Qed.

Lemma vote_bar_widths_example :
  let d := calculateVotePercentages
             {| p_yesVotes := FNum 30; p_noVotes := FNaN; p_abstainVotes := FNum 10 |} in
  finitePercentage (vd_yesPercentage d) /\
  finitePercentage (vd_noPercentage d) /\
  finitePercentage (vd_abstainPercentage d).
Proof.
  apply (vote_bar_widths_in_range
           {| p_yesVotes := FNum 30; p_noVotes := FNaN; p_abstainVotes := FNum 10 |}).
  - discriminate.
  - exact I.
  - discriminate.
Defined.

End BarsAndSupply.

Section Supply.
Import Js Holders.

Variable formatSupply : Z -> string.

(** X30.  [fetchSupplyData] never raises.  When the total supply cannot be
    read both figures are ["0"].  Otherwise the circulating supply is the
    total minus the treasury, where the treasury is the analytics helper's
    balance if that is non-zero, else the governance contract's token
    balance, else nothing -- so without any treasury figure the circulating
    supply equals the total supply. *)
Theorem supply_data_sources (c : Contracts) :
  (token c ≫= (fun t => match totalSupply t with
                        | Returned total => Some total
                        | Thrown _ => None
                        end) = None ->
   fetchSupplyData formatSupply c =
     {| circulatingSupply := "0"; totalTokenSupply := "0" |}) /\
  (forall t total,
     token c = Some t -> totalSupply t = Returned total ->
     exists treasury,
       fetchSupplyData formatSupply c =
         {| circulatingSupply := formatSupply (total - treasury);
            totalTokenSupply := formatSupply total |} /\
       (treasuryFromAnalytics c <> 0 -> treasury = treasuryFromAnalytics c) /\
       (treasuryFromAnalytics c = 0 ->
        match governanceAddress c with
        | Some governance =>
            match balanceOf t governance with
            | Returned balance => treasury = balance
            | Thrown _ => treasury = 0
            end
        | None => treasury = 0
        end)).
Proof.
  split.
  - unfold fetchSupplyData. destruct (token c) as [t|]; simpl; [|reflexivity].
    destruct (totalSupply t); simpl; [discriminate|reflexivity].
  - intros t total Ht Htotal. unfold fetchSupplyData. rewrite Ht. simpl.
    rewrite Htotal. simpl. exists (treasuryOf c t). split; [reflexivity|].
    unfold treasuryOf. split.
    + intros Hnz. destruct (Z.eqb_spec (treasuryFromAnalytics c) 0);
        [contradiction|reflexivity].
    + intros Hz. rewrite Hz. simpl.
      destruct (governanceAddress c) as [governance|]; simpl; [|reflexivity].
      destruct (balanceOf t governance); reflexivity.
Qed.

End Supply.
